(** * Settings resolution and recursive file decoder

    A shallow embedding of [flagmaker/settings.py] (class [SettingOption])
    and [csv_decoder.py] (class [Decoder]) together with the properties
    the specification states about them.

    Python values are a small tagged union, exceptions are a closed
    enumeration, and effectful methods are functions in a state and
    exception monad: a call either returns a result and a new state, or
    raises and leaves the state it had reached when the exception left. *)

From Stdlib Require Import ZArith Ascii String.
From stdpp Require Import gmap strings list pretty.

Local Open Scope string_scope.
Local Open Scope Z_scope.

(** ** Python values, exceptions and the builtins the code calls *)

Module Py.

Inductive Val : Type :=
| VNone
| VBool (b : bool)
| VInt (z : Z)
| VStr (s : string)
| VList (l : list string).

Inductive Exn : Type :=
| ValueError
| TypeError
| EOFError
| UnicodeError
| UnicodeDecodeError
| XLRDError
| EmptyDataError
| FileExistsError
| FileNotFoundError
| FlagMakerInputError.

Global Instance Val_eq_dec : EqDecision Val.
Proof. solve_decision. Defined.

Global Instance Exn_eq_dec : EqDecision Exn.
Proof. solve_decision. Defined.

(** [v == s] for a string literal [s]. *)
Definition eq_str (v : Val) (s : string) : bool :=
  match v with
  | VStr t => String.eqb t s
  | _ => false
  end.

(** [v != ''] *)
Definition ne_empty (v : Val) : bool := negb (eq_str v "").

(** [v is None] *)
Definition is_none (v : Val) : bool :=
  match v with VNone => true | _ => false end.

(** [bool(v)] *)
Definition truthy (v : Val) : bool :=
  match v with
  | VNone => false
  | VBool b => b
  | VInt z => negb (z =? 0)
  | VStr s => negb (String.eqb s "")
  | VList l => match l with [] => false | _ => true end
  end.

(** [int(b)] for a bool, as used in [int(value != '')]. *)
Definition int_of_bool (b : bool) : Z := if b then 1 else 0.

(** *** [int(s)] on text

    Base ten, ASCII input: surrounding white space is dropped, one sign
    is allowed, and digits may be grouped by single underscores. *)

Definition is_space (c : ascii) : bool :=
  let n := nat_of_ascii c in
  ((9 <=? n)%nat && (n <=? 13)%nat)
  || ((28 <=? n)%nat && (n <=? 32)%nat).

Definition digit_of (c : ascii) : option Z :=
  let n := nat_of_ascii c in
  if ((48 <=? n)%nat && (n <=? 57)%nat) then Some (Z.of_nat n - 48) else None.

Fixpoint lstrip (l : list ascii) : list ascii :=
  match l with
  | c :: r => if is_space c then lstrip r else l
  | [] => []
  end.

Definition strip (l : list ascii) : list ascii :=
  rev (lstrip (rev (lstrip l))).

Fixpoint digits (acc : Z) (after_digit : bool) (l : list ascii) : option Z :=
  match l with
  | [] => if after_digit then Some acc else None
  | c :: r =>
      match digit_of c with
      | Some d => digits (10 * acc + d) true r
      | None =>
          if Ascii.eqb c "_"%char
          then (if after_digit then digits acc false r else None)
          else None
      end
  end.

Definition int_of_str (s : string) : option Z :=
  match strip (list_ascii_of_string s) with
  | c :: r =>
      if Ascii.eqb c "-"%char then Z.opp <$> digits 0 false r
      else if Ascii.eqb c "+"%char then digits 0 false r
      else digits 0 false (c :: r)
  | [] => None
  end.

(** [int(v)]: the integer, or the exception the builtin raises. *)
Definition int (v : Val) : Z + Exn :=
  match v with
  | VInt z => inl z
  | VBool b => inl (int_of_bool b)
  | VStr s => match int_of_str s with Some z => inl z | None => inr ValueError end
  | VNone => inr TypeError
  | VList _ => inr TypeError
  end.

(** *** [s.lower()] on ASCII text *)

Definition lower_char (c : ascii) : ascii :=
  let n := nat_of_ascii c in
  if ((65 <=? n)%nat && (n <=? 90)%nat) then ascii_of_nat (n + 32) else c.

Fixpoint lower (s : string) : string :=
  match s with
  | EmptyString => EmptyString
  | String c r => String (lower_char c) (lower r)
  end.

(** [s.endswith(suffix)] *)
Definition endswith (s suffix : string) : bool :=
  let n := String.length s in
  let k := String.length suffix in
  (k <=? n)%nat && String.eqb (substring (n - k) k s) suffix.

End Py.

Import Py.

(** ** State and exception monad *)

Inductive result (S A : Type) : Type :=
| Returned (a : A) (s : S)
| Raised (e : Exn) (s : S).
Arguments Returned {S A} a s.
Arguments Raised {S A} e s.

Definition M (S A : Type) : Type := S -> result S A.

Definition ret {S A} (a : A) : M S A := fun s => Returned a s.
Definition raise {S A} (e : Exn) : M S A := fun s => Raised e s.
Definition bind {S A B} (c : M S A) (k : A -> M S B) : M S B :=
  fun s => match c s with
           | Returned a s' => k a s'
           | Raised e s' => Raised e s'
           end.
Definition gets {S A} (f : S -> A) : M S A := fun s => Returned (f s) s.
Definition modify {S} (f : S -> S) : M S unit := fun s => Returned tt (f s).

Notation "x <~ c1 ;; c2" := (bind c1 (fun x => c2))
  (at level 100, c1 at next level, right associativity).
Notation "c1 ;;; c2" := (bind c1 (fun _ => c2))
  (at level 100, right associativity).

Definition final_state {S A} (r : result S A) : S :=
  match r with Returned _ s => s | Raised _ s => s end.


(** ** [flagmaker/settings.py]: class [SettingOption] *)

Module Settings.

(** The flag constructors an option can carry in [method]; the setter
    compares [self.method] against two of them. *)
Inductive Method : Type :=
| DEFINE_string
| DEFINE_boolean
| DEFINE_integer
| DEFINE_list
| DEFINE_enum
| DEFINE_float.

Global Instance Method_eq_dec : EqDecision Method.
Proof. solve_decision. Defined.

(** Modelled from the spec: class [Value] of [flagmaker/building_blocks.py]
    is not among the sources.  The cell holds a raw value or is unset;
    [set_val] always succeeds and makes the cell explicitly set,
    [get_val] reads the value or the unset sentinel ([None]), and the
    truth value of the cell is whether it was set, not whether the
    stored value is truthy. *)
Record Value : Type := mkValue { raw : option Val }.

(** Modelled from the spec: [Value()], the cell as it is created, unset. *)
Definition unset : Value := mkValue None.

(** Modelled from the spec: [Value.set_val], which always succeeds and
    leaves the cell explicitly set. *)
Definition set_val (v : Val) (c : Value) : Value := mkValue (Some v).

(** Modelled from the spec: [Value.get_val], the current value or the
    unset sentinel. *)
Definition get_val (c : Value) : Val :=
  match raw c with Some v => v | None => VNone end.

(** Modelled from the spec: [Value.__bool__], whether the cell was set. *)
Definition is_set (c : Value) : bool :=
  match raw c with Some _ => true | None => false end.

(** What a hook can reach through the option it is handed: the value
    cell and the [custom_data] dictionary. *)
Record HookView : Type := mkView {
  hv_cell : Value;
  hv_custom_data : gmap string Val
}.

Inductive HookResult : Type :=
| HReturn (r : Val) (v : HookView)
| HRaise (e : Exn) (v : HookView).

Definition Hook : Type := HookView -> HookResult.

(** The attributes [create] assigns. *)
Record SettingOption : Type := mkOption {
  default : Val;
  help : string;
  method : Method;
  required : bool;
  validation : option (Val -> bool);
  after : option Hook
}.

(** What the run of an option can be observed to do. *)
Inductive Event : Type :=
| EvInput (prompt : string)
| EvAfter (seen : Val)
| EvPrint (msg : string).

Global Instance Event_eq_dec : EqDecision Event.
Proof. solve_decision. Defined.

(** The mutable part: the two private attributes, the dictionary the
    hooks share, the lines the console still holds, and the trace. *)
Record State : Type := mkState {
  value_cell : Value;
  error : bool;
  custom_data : gmap string Val;
  stdin : list string;
  events : list Event
}.

Definition with_cell (c : Value) (st : State) : State :=
  mkState c (error st) (custom_data st) (stdin st) (events st).
Definition with_error (b : bool) (st : State) : State :=
  mkState (value_cell st) b (custom_data st) (stdin st) (events st).
Definition with_view (v : HookView) (st : State) : State :=
  mkState (hv_cell v) (error st) (hv_custom_data v) (stdin st) (events st).
Definition with_stdin (l : list string) (st : State) : State :=
  mkState (value_cell st) (error st) (custom_data st) l (events st).
Definition emit (e : Event) (st : State) : State :=
  mkState (value_cell st) (error st) (custom_data st) (stdin st)
          (events st ++ [e]).

Definition view (st : State) : HookView :=
  mkView (value_cell st) (custom_data st).

(** The state [__init__] leaves: a fresh cell, the class-level
    [__error = False]. *)
Definition init_state (custom : gmap string Val) (lines : list string) : State :=
  mkState unset false custom lines [].

(** [self.value] (the property) *)
Definition value (st : State) : Val := get_val (value_cell st).

(** [self.__value.set_val(v)] *)
Definition store (v : Val) (st : State) : State :=
  with_cell (set_val v (value_cell st)) st.

(** The end of the setter: the post-set hook and the error flag. *)
Definition run_after (o : SettingOption) : M State unit :=
  fun st =>
    match after o with
    | Some hook =>
        let st' := emit (EvAfter (value st)) st in
        match hook (view st') with
        | HReturn r w => Returned tt (with_error (negb (truthy r)) (with_view w st'))
        | HRaise e w => Raised e (with_view w st')
        end
    | None => Returned tt (with_error false st)
    end.

(** [SettingOption.value] (the setter) *)
Definition value_setter (o : SettingOption) (v : Val) : M State unit :=
  match method o with
  | DEFINE_boolean =>
      if eq_str v "1" || eq_str v "true"
      then (modify (store (VBool true)) ;;; run_after o)
      else if eq_str v "0" || eq_str v "false" then ret tt
      else (modify (store v) ;;; run_after o)
  | DEFINE_integer =>
      match int v with
      | inl z => modify (store (VInt z)) ;;; run_after o
      | inr e => raise e
      end
  | _ => modify (store v) ;;; run_after o
  end.

(** [value_explicitly_set] *)
Definition value_explicitly_set (st : State) : bool := is_set (value_cell st).

(** Modelled from the spec: [Validator.validate] of [flagmaker/sanity.py]
    is not among the sources.  It is a pure predicate: the option's
    validation predicate, when one is declared, applied to the value. *)
Definition validate (o : SettingOption) (st : State) : bool :=
  match validation o with
  | Some p => p (value st)
  | None => true
  end.

(** [input(prompt)]: the next console line, [EOFError] when there is none. *)
Definition input (prompt : string) : M State string :=
  fun st =>
    match stdin st with
    | line :: rest => Returned line (emit (EvInput prompt) (with_stdin rest st))
    | [] => Raised EOFError (emit (EvInput prompt) st)
    end.

Definition num_opts (v : Val) (prompt : string) (init : Val) : Z :=
  int_of_bool (ne_empty v)
  + int_of_bool (negb (String.eqb prompt ""))
  + int_of_bool (ne_empty init).

(** What one pass through the body of [while True] decides. *)
Inductive Step : Type :=
| Return
| Continue.

(** The end of the loop body, from [if not Validator.validate(self)] on. *)
Definition validate_and_finish (o : SettingOption) : M State Step :=
  valid <~ gets (validate o) ;;
  if negb valid then ret Continue
  else
    (explicit <~ gets value_explicitly_set ;;
     if explicit || negb (required o) then ret Return
     else (modify (emit (EvPrint "Required Field")) ;;; ret Continue)).

(** One iteration of the loop of [set_value]. *)
Definition set_value_body (o : SettingOption) (v : Val) (prompt : string)
    (init : Val) : M State Step :=
  if negb (num_opts v prompt init =? 1) then raise FlagMakerInputError
  else if is_none init then ret Return
  else if ne_empty init then
    (modify (store init) ;;; ret Return)
  else if negb (String.eqb prompt "") then
    (val <~ input prompt ;;
     (if String.eqb val "" && negb (is_none (default o))
      then value_setter o (default o)
      else value_setter o (VStr val)) ;;;
     failed <~ gets error ;;
     if (failed : bool) then (value_setter o VNone ;;; ret Continue)
     else validate_and_finish o)
  else (value_setter o v ;;; validate_and_finish o).

(** [set_value]: the loop, cut off after [fuel] iterations ([None]). *)
Fixpoint set_value (fuel : nat) (o : SettingOption) (v : Val) (prompt : string)
    (init : Val) (st : State) : option (result State unit) :=
  match fuel with
  | O => None
  | S n =>
      match set_value_body o v prompt init st with
      | Returned Return st' => Some (Returned tt st')
      | Returned Continue st' => set_value n o v prompt init st'
      | Raised e st' => Some (Raised e st')
      end
  end.

End Settings.

(** ** [csv_decoder.py]: class [Decoder] *)

Module Decoder.

Definition SINGLE_FILE : Z := 1.
Definition SEPARATE_FILES : Z := 2.

(** A Python [dict] with text keys and values: an association list in
    insertion order, each key at most once. *)
Definition dict : Type := list (string * string).

Fixpoint dict_get (d : dict) (k : string) : option string :=
  match d with
  | [] => None
  | (k', v) :: rest => if String.eqb k' k then Some v else dict_get rest k
  end.

(** [d[k] = v]: an existing key keeps its place, a new one goes last. *)
Fixpoint dict_set (k v : string) (d : dict) : dict :=
  match d with
  | [] => [(k, v)]
  | (k', v') :: rest =>
      if String.eqb k' k then (k, v) :: rest else (k', v') :: dict_set k v rest
  end.

Definition keys (d : dict) : list string := d.*1.
Definition values (d : dict) : list string := d.*2.

(** A data frame: the column labels and the rows under them. *)
Record DataFrame : Type := mkFrame {
  columns : list string;
  index : list (list string)
}.

(** [df.rename(f, axis='columns')] *)
Definition rename (f : string -> string) (df : DataFrame) : DataFrame :=
  mkFrame (f <$> columns df) (index df).

(** What [pd.read_excel] and [pd.read_csv] do on a file: pandas either
    hands back a frame or raises. *)
Inductive Read : Type :=
| Frame (df : DataFrame)
| Raises (e : Exn).

Record Reads : Type := mkReads {
  excel : Read;
  csv : string -> Read
}.

(** What a path holds.  [os.path.isdir] is true of [Directory];
    [tarfile.is_tarfile] of [TarArchive]; [zipfile.is_zipfile] of
    [ZipArchive]. *)
#[local] Unset Elimination Schemes.
Inductive Node : Type :=
| Directory (entries : list (string * Node))
| Regular (r : Reads)
| TarArchive (r : Reads) (members : list (string * Node))
| ZipArchive (r : Reads) (members : list (string * Node)).
#[local] Set Elimination Schemes.

(** The calls to the outside, recorded with their arguments: what
    pandas does inside [to_csv] is not interpreted. *)
Inductive Event : Type :=
| ReadExcel (path : string)
| ReadCsv (path encoding : string)
| ToCsv (target : string) (header : bool) (mode : string)
        (cols : list string) (df : DataFrame)
| Logged (msg : string)
| MadeDir (d : string)
| Extracted (d : string)
| RemovedTree (d : string).

(** The attributes of a [Decoder] and the surroundings it acts on: a
    clock that every reading advances, the directories that exist
    under [/tmp], and the trace of calls to the outside. *)
Record State : Type := mkState {
  first : bool;
  map : dict;
  out_type : Z;
  desired_encoding : string;
  path : string;
  dest : string;
  _file_count : nat;
  dir : option string;
  rows_opened : nat;
  clock : nat;
  tmp : list string;
  trace : list Event
}.

Definition set_first (b : bool) (s : State) : State :=
  mkState b (map s) (out_type s) (desired_encoding s) (path s) (dest s)
          (_file_count s) (dir s) (rows_opened s) (clock s) (tmp s) (trace s).
Definition set_file_count (n : nat) (s : State) : State :=
  mkState (first s) (map s) (out_type s) (desired_encoding s) (path s) (dest s)
          n (dir s) (rows_opened s) (clock s) (tmp s) (trace s).
Definition set_dir (d : option string) (s : State) : State :=
  mkState (first s) (map s) (out_type s) (desired_encoding s) (path s) (dest s)
          (_file_count s) d (rows_opened s) (clock s) (tmp s) (trace s).
Definition set_rows_opened (n : nat) (s : State) : State :=
  mkState (first s) (map s) (out_type s) (desired_encoding s) (path s) (dest s)
          (_file_count s) (dir s) n (clock s) (tmp s) (trace s).
Definition set_clock (n : nat) (s : State) : State :=
  mkState (first s) (map s) (out_type s) (desired_encoding s) (path s) (dest s)
          (_file_count s) (dir s) (rows_opened s) n (tmp s) (trace s).
Definition set_tmp (l : list string) (s : State) : State :=
  mkState (first s) (map s) (out_type s) (desired_encoding s) (path s) (dest s)
          (_file_count s) (dir s) (rows_opened s) (clock s) l (trace s).
Definition emit (e : Event) (s : State) : State :=
  mkState (first s) (map s) (out_type s) (desired_encoding s) (path s) (dest s)
          (_file_count s) (dir s) (rows_opened s) (clock s) (tmp s)
          (trace s ++ [e]).

(** [Decoder.__init__], in surroundings whose clock reads [now] and
    whose [/tmp] holds [existing]. *)
Definition init (desired_encoding path : string) (dict_map : dict)
    (out_type : Z) (dest : string) (now : nat) (existing : list string) : State :=
  mkState true
          (fold_left (fun m kv => dict_set (lower kv.1) kv.2 m) dict_map [])
          out_type desired_encoding path dest 0%nat None 0%nat now existing [].

(** [self.dtypes]: every key of the map is read as text. *)
Definition dtypes (s : State) : list string := keys (map s).

(** [Decoder.filename] (a property with a side effect) *)
Definition filename : M State string :=
  fun s =>
    if out_type s =? SINGLE_FILE then Returned (dest s) s
    else
      let s' := set_file_count (S (_file_count s)) s in
      Returned (pretty (_file_count s')) s'.

(** [Decoder.time] (a property): the stamp of the present instant. *)
Definition time : M State string :=
  fun s => Returned (pretty (clock s)) (set_clock (S (clock s)) s).

Definition format_dir (d : option string) : string :=
  match d with Some t => t | None => "None" end.

(** [rename_columns], the function local to [write] *)
Definition rename_columns (m : dict) (s : string) : string :=
  let l := lower s in
  match dict_get m l with
  | Some canonical => canonical
  | None => l
  end.

(** [FileDecoder.write] *)
Definition write (df : DataFrame) : M State unit :=
  ot <~ gets out_type ;;
  let doing_single_file := ot =? SINGLE_FILE in
  include_headers <~
    (if doing_single_file then
       (f <~ gets first ;;
        (if (f : bool) then modify (set_first false) else ret tt) ;;;
        ret f)
     else ret true) ;;
  let write_method := if doing_single_file then "a" else "w" in
  m <~ gets map ;;
  let df' := rename (rename_columns m) df in
  modify (fun s => set_rows_opened (rows_opened s + length (index df'))%nat s) ;;;
  d <~ gets dir ;;
  name <~ filename ;;
  modify (emit (ToCsv (format_dir d ++ "/" ++ name) include_headers
                      write_method (values m) df')).

Definition is_unicode_error (e : Exn) : bool :=
  match e with UnicodeDecodeError | UnicodeError => true | _ => false end.

(** The [for encoding in ...] loop of [decode_csv]. *)
Fixpoint decode_csv_loop (encodings : list string) (r : Reads) (p : string)
    : M State unit :=
  match encodings with
  | [] => ret tt
  | encoding :: rest =>
      modify (emit (ReadCsv p encoding)) ;;;
      match csv r encoding with
      | Frame df =>
          write df ;;;
          modify (emit (Logged ("Decoded " ++ p ++ " from " ++ encoding)))
      | Raises e =>
          if is_unicode_error e then
            if String.eqb encoding "latin-1" then raise e
            else
              (modify (emit (Logged ("Unicode error for " ++ p ++ " with " ++ encoding))) ;;;
               decode_csv_loop rest r p)
          else raise e
      end
  end.

(** [FileDecoder.decode_csv] *)
Definition decode_csv (r : Reads) (p : string) : M State unit :=
  decode_csv_loop ["utf-8"; "utf-16"; "latin-1"] r p.

(** [FileDecoder.decode_excel]; the frame [df.rename(columns=...)]
    returns is dropped, so the call changes nothing. *)
Definition decode_excel (r : Reads) (p : string) : M State unit :=
  modify (emit (ReadExcel p)) ;;;
  match excel r with
  | Frame df => write df ;;; modify (emit (Logged ("Wrote to " ++ p)))
  | Raises e => raise e
  end.

(** [FileDecoder.run] *)
Definition FileDecoder_run (r : Reads) (p : string) : M State unit :=
  fun s =>
    match decode_excel r p s with
    | Raised XLRDError s' => decode_csv r p s'
    | other => other
    end.

(** [th.extractall(d)]: the directory exists afterwards. *)
Definition extractall (d : string) : M State unit :=
  modify (fun s =>
    emit (Extracted d) (if bool_decide (d ∈ tmp s) then s else set_tmp (d :: tmp s) s)).

(** [shutil.rmtree(d)] *)
Definition rmtree (d : string) : M State unit :=
  fun s =>
    if bool_decide (d ∈ tmp s)
    then Returned tt (emit (RemovedTree d)
                        (set_tmp (filter (fun x => x ≠ d) (tmp s)) s))
    else Raised FileNotFoundError s.

(** [os.mkdir(d)] *)
Definition mkdir (d : string) : M State unit :=
  fun s =>
    if bool_decide (d ∈ tmp s) then Raised FileExistsError s
    else Returned tt (emit (MadeDir d) (set_tmp (d :: tmp s) s)).

Section Traversal.

(** The dispatcher, which the directory loop calls on every entry. *)
Variable choose : Node -> string -> M State unit.

(** [DirectoryDecoder.run], on the listing of the directory. *)
Fixpoint DirectoryDecoder_run (p : string) (listing : list (string * Node))
    : M State unit :=
  match listing with
  | [] => ret tt
  | (name, child) :: rest =>
      choose child (p ++ "/" ++ name) ;;;
      DirectoryDecoder_run p rest
  end.

(** The body shared by [TarfileDecoder.run] and [ZipfileDecoder.run],
    which differ in the prefix of the directory they extract to. *)
Definition archive_run (prefix : string) (members : list (string * Node))
    : M State unit :=
  stamp <~ time ;;
  let extraction_directory := prefix ++ stamp in
  extractall extraction_directory ;;;
  DirectoryDecoder_run extraction_directory members ;;;
  rmtree extraction_directory.

End Traversal.

(** [ChooseyDecoder.run] *)
Fixpoint ChooseyDecoder_run (n : Node) (p : string) {struct n} : M State unit :=
  match n with
  | Directory entries => DirectoryDecoder_run ChooseyDecoder_run p entries
  | Regular r =>
      if endswith p ".csv" || endswith p ".xlsx" then FileDecoder_run r p
      else modify (emit (Logged ("Skipping " ++ p)))
  | TarArchive r members =>
      if endswith p ".csv" || endswith p ".xlsx" then FileDecoder_run r p
      else archive_run ChooseyDecoder_run "/tmp/tar-output-" members
  | ZipArchive r members =>
      if endswith p ".csv" || endswith p ".xlsx" then FileDecoder_run r p
      else archive_run ChooseyDecoder_run "/tmp/zip-output-" members
  end.


(** [Decoder.run], on what [self.path] holds. *)
Definition run (root : Node) : M State string :=
  stamp <~ time ;;
  let d := "/tmp/updir-" ++ stamp in
  modify (set_dir (Some d)) ;;;
  mkdir d ;;;
  p <~ gets path ;;
  ChooseyDecoder_run root p ;;;
  s <~ gets (fun s => s) ;;
  ret (if negb (out_type s =? SINGLE_FILE) then format_dir (dir s)
       else format_dir (dir s) ++ "/" ++ dest s).

End Decoder.

(** ** Attribute lookup on [SettingOption] objects

    The class statement of [SettingOption] binds its names once, in the
    namespace of the class; [__init__] and [create] bind names in the
    namespace of the instance.  Reading an attribute looks in the
    instance first and in the class second. *)

Module Objects.

Inductive Obj : Type :=
| ODict (d : gmap string Val)
| OValue (c : Settings.Value).

(** An attribute holds a plain value, a callable known by name, or a
    reference to an object on the heap. *)
Inductive Attr : Type :=
| Plain (v : Val)
| Callable (name : string)
| Ref (l : nat).

Record Heap : Type := mkHeap {
  objects : gmap nat Obj;
  next : nat
}.

Definition alloc (o : Obj) (h : Heap) : nat * Heap :=
  (next h, mkHeap (<[next h := o]> (objects h)) (S (next h))).

(** The heap once the class statement has run: evaluating
    [custom_data: StringKeyDict = {}] built one dictionary. *)
Definition custom_data_object : nat := 0%nat.
Definition class_heap : Heap := (alloc (ODict ∅) (mkHeap ∅ 0%nat)).2.

(** The namespace of the class, lines 15 to 25. *)
Definition class_namespace : gmap string Attr :=
  <["default" := Plain VNone]>
  (<["help" := Plain VNone]>
  (<["method" := Plain VNone]>
  (<["_SettingOption__value" := Plain VNone]>
  (<["required" := Plain (VBool false)]>
  (<["validation" := Plain VNone]>
  (<["show" := Plain VNone]>
  (<["after" := Plain VNone]>
  (<["prompt" := Plain VNone]>
  (<["custom_data" := Ref custom_data_object]>
  (<["_SettingOption__error" := Plain (VBool false)]> ∅)))))))))).

(** An instance is its own namespace. *)
Abbreviation Instance := (gmap string Attr).

(** [obj.name] *)
Definition getattr (obj : Instance) (name : string) : option Attr :=
  match obj !! name with
  | Some a => Some a
  | None => class_namespace !! name
  end.

(** [SettingOption()], that is [__init__] *)
Definition new (h : Heap) : Instance * Heap :=
  let (l, h') := alloc (OValue Settings.unset) h in
  (<["_SettingOption__value" := Ref l]> ∅, h').

Record CreateArgs : Type := mkArgs {
  arg_helptext : Attr;
  arg_default : Attr;
  arg_method : Attr;
  arg_required : Attr;
  arg_validation : Attr;
  arg_show : Attr;
  arg_after : Attr;
  arg_prompt : Attr
}.

(** [SettingOption.create] *)
Definition create (a : CreateArgs) (h : Heap) : Instance * Heap :=
  let (fl, h') := new h in
  (<["prompt" := arg_prompt a]>
   (<["after" := arg_after a]>
   (<["show" := arg_show a]>
   (<["validation" := arg_validation a]>
   (<["required" := arg_required a]>
   (<["method" := arg_method a]>
   (<["help" := arg_helptext a]>
   (<["default" := arg_default a]> fl))))))), h').

(** [setting.custom_data[k] = v], as the hooks write it *)
Definition custom_data_setitem (setting : Instance) (k : string) (v : Val)
    (h : Heap) : option Heap :=
  match getattr setting "custom_data" with
  | Some (Ref l) =>
      match objects h !! l with
      | Some (ODict d) => Some (mkHeap (<[l := ODict (<[k := v]> d)]> (objects h)) (next h))
      | _ => None
      end
  | _ => None
  end.

(** [setting.custom_data.get(k)] *)
Definition custom_data_getitem (setting : Instance) (k : string)
    (h : Heap) : option Val :=
  match getattr setting "custom_data" with
  | Some (Ref l) =>
      match objects h !! l with
      | Some (ODict d) => d !! k
      | _ => None
      end
  | _ => None
  end.

End Objects.

(** ** Readings of the decoder's trace and state used in the statements *)

Module DecoderAux.
Import Decoder.


(** The fallback list of [decode_csv]. *)
Definition encodings : list string := ["utf-8"; "utf-16"; "latin-1"].




(** The encodings [pd.read_csv] was called with, in order. *)
Definition csv_reads (t : list Event) : list string :=
  omap (fun e => match e with ReadCsv _ encoding => Some encoding | _ => None end) t.

(** The frames handed to [to_csv], in order. *)
Definition frames_written (t : list Event) : list DataFrame :=
  omap (fun e => match e with ToCsv _ _ _ _ df => Some df | _ => None end) t.

(** The [header] argument of every [to_csv] call, in order. *)
Definition header_flags (t : list Event) : list bool :=
  omap (fun e => match e with ToCsv _ h _ _ _ => Some h | _ => None end) t.

(** The directories [shutil.rmtree] was called on. *)
Definition removed (t : list Event) : list string :=
  omap (fun e => match e with RemovedTree d => Some d | _ => None end) t.

Definition no_flags (l : list bool) : bool :=
  match l with [] => true | _ => false end.

(** [n] header arguments of a merged run whose flag [first] was [fresh]
    at the start. *)
Definition expected_flags (fresh : bool) (n : nat) : list bool :=
  match n with
  | O => []
  | S k => fresh :: replicate k false
  end.

(** A [to_csv] call of a merged run of [s]: it appends to the one
    destination and selects the values of the map. *)
Definition merged_write (s : State) (e : Event) : Prop :=
  match e with
  | ToCsv target _ mode cols _ =>
      target = format_dir (dir s) ++ "/" ++ dest s
      /\ mode = "a" /\ cols = values (map s)
  | _ => True
  end.

(** [d] is an extraction directory stamped in the interval [lo, hi). *)
Definition extraction_dir (d : string) (lo hi : nat) : Prop :=
  exists c : nat,
    (lo <= c < hi)%nat
    /\ (d = "/tmp/tar-output-" ++ pretty c \/ d = "/tmp/zip-output-" ++ pretty c).

(** What every part of the traversal keeps of a state [s] when it
    leaves [s']: the configuration; time only passes; directories
    disappear from [/tmp] only if they were stamped meanwhile; the
    trace only grows, and in a merged run it grows by headers that
    follow the flag [first]. *)
Record Step (s s' : State) : Prop := mkStep {
  step_map : map s' = map s;
  step_out_type : out_type s' = out_type s;
  step_dest : dest s' = dest s;
  step_dir : dir s' = dir s;
  step_clock : (clock s <= clock s')%nat;
  step_tmp : forall d, d ∈ tmp s ->
               d ∈ tmp s' \/ extraction_dir d (clock s) (clock s');
  step_trace : exists new,
    trace s' = (trace s ++ new)%list
    /\ (out_type s = SINGLE_FILE ->
        Forall (merged_write s) new
        /\ header_flags new = expected_flags (first s) (length (header_flags new))
        /\ first s' = first s && no_flags (header_flags new))
}.

Definition preserves {A} (c : M State A) : Prop :=
  forall s, Step s (final_state (c s)).

(** The state in which [run] starts the traversal, once the output
    directory is made. *)
Definition started (s : State) : State :=
  let d := "/tmp/updir-" ++ pretty (clock s) in
  emit (MadeDir d) (set_tmp (d :: tmp s) (set_dir (Some d) (set_clock (S (clock s)) s))).

Section NodeInduction.
Variable P : Node -> Prop.
Hypothesis on_directory :
  forall entries, Forall (fun e => P e.2) entries -> P (Directory entries).
Hypothesis on_regular : forall r, P (Regular r).
Hypothesis on_tar :
  forall r members, Forall (fun e => P e.2) members -> P (TarArchive r members).
Hypothesis on_zip :
  forall r members, Forall (fun e => P e.2) members -> P (ZipArchive r members).

Fixpoint Node_ind (n : Node) : P n :=
  let all :=
    fix all (l : list (string * Node)) : Forall (fun e => P e.2) l :=
      match l with
      | [] => List.Forall_nil _
      | e :: rest => @List.Forall_cons _ _ e rest (Node_ind e.2) (all rest)
      end in
  match n with
  | Directory entries => on_directory entries (all entries)
  | Regular r => on_regular r
  | TarArchive r members => on_tar r members (all members)
  | ZipArchive r members => on_zip r members (all members)
  end.
End NodeInduction.

End DecoderAux.

(** ** Concrete options and consoles the statements are tried on *)

Module Samples.
Import Settings.

(** A hook that refuses every value and touches nothing. *)
Definition refuse : Hook := fun w => HReturn (VBool false) w.

(** A hook that accepts every value and touches nothing. *)
Definition accept : Hook := fun w => HReturn (VBool true) w.

Definition bool_option : SettingOption :=
  mkOption VNone "Include Historical Data?" DEFINE_boolean true None (Some accept).

Definition int_option : SettingOption :=
  mkOption VNone "How many" DEFINE_integer true None None.

Definition int_option_refused : SettingOption :=
  mkOption VNone "How many" DEFINE_integer true None (Some refuse).

Definition text_option_refused : SettingOption :=
  mkOption VNone "Storage Bucket Name" DEFINE_string true None (Some refuse).

Definition console (lines : list string) : State := init_state ∅ lines.

End Samples.

Module DecoderSamples.
Import Decoder.

Definition two_columns : dict := [("Name", "account_name"); ("Amount", "revenue")].

Definition merged : State := init "utf-8" "/in" two_columns SINGLE_FILE "out.csv" 7 [].

(** An empty file: xlrd rejects it, and [pd.read_csv] finds no columns
    to parse whatever the encoding. *)
Definition empty_file : Reads :=
  mkReads (Raises XLRDError) (fun _ => Raises EmptyDataError).

Definition frame (cols : list string) (row : list string) : DataFrame :=
  mkFrame cols [row].

(** A [.csv] file in utf-16: xlrd rejects it, utf-8 fails on it. *)
Definition utf16_csv (df : DataFrame) : Reads :=
  mkReads (Raises XLRDError)
          (fun encoding => if String.eqb encoding "utf-8"
                           then Raises UnicodeDecodeError else Frame df).

(** A directory with a utf-16 [.csv] file, a file that is no table, and
    a zip archive that holds one more [.csv] file. *)
Definition mixed_directory : Node :=
  Directory
    [("a.csv", Regular (utf16_csv (frame ["Name"; "Amount"; "Extra"] ["x"; "1"; "e"])));
     ("notes.txt", Regular empty_file);
     ("more.zip",
      ZipArchive empty_file
        [("b.csv", Regular (utf16_csv (frame ["NAME"; "amount"] ["y"; "2"])))])].

Definition zipball : Node := ZipArchive empty_file [("a.csv", Regular empty_file)].

End DecoderSamples.

(** ** More readings and samples for [SettingOption] *)

Module SettingsMore.
Import Settings.

(** The values the post-set hook was entered on, in order. *)
Definition hook_runs (t : list Event) : list Val :=
  omap (fun e => match e with EvAfter v => Some v | _ => None end) t.

(** The lines the loop asked for. *)
Definition prompts (t : list Event) : list string :=
  omap (fun e => match e with EvInput p => Some p | _ => None end) t.

(** A hook that raises on every value and touches nothing. *)
Definition failing : Hook := fun w => HRaise ValueError w.

Definition text_option_failing : SettingOption :=
  mkOption VNone "GCP Project Name" DEFINE_string true None (Some failing).

(** An option whose validator accepts only the text [ok]. *)
Definition text_option_validated : SettingOption :=
  mkOption VNone "Dataset" DEFINE_string true
           (Some (fun v => eq_str v "ok")) None.

(** An optional text option with a default. *)
Definition text_option_with_default : SettingOption :=
  mkOption (VStr "raw") "Dataset where raw data will be stored"
           DEFINE_string false None None.

End SettingsMore.

(** ** More readings and samples for [Decoder] *)

Module DecoderMore.
Import Decoder DecoderAux.

(** The rows of the frames handed to [to_csv], added up. *)
Definition rows_written (t : list Event) : nat :=
  sum_list (omap (fun e => match e with
                           | ToCsv _ _ _ _ df => Some (length (index df))
                           | _ => None
                           end) t).

(** The files [to_csv] was pointed at, and the modes it opened them in. *)
Definition targets (t : list Event) : list string :=
  omap (fun e => match e with ToCsv target _ _ _ _ => Some target | _ => None end) t.

Definition modes (t : list Event) : list string :=
  omap (fun e => match e with ToCsv _ _ mode _ _ => Some mode | _ => None end) t.

(** The name of the [i]-th file of a run that writes separate files. *)
Definition numbered (d : option string) (i : nat) : string :=
  format_dir d ++ "/" ++ pretty i.

(** What every part of the traversal does to the counters of [s] when
    it leaves [s']: the rows of every frame written are added to
    [rows_opened]; a merged run leaves [_file_count] alone; a run that
    writes separate files numbers them on from [_file_count], each with
    its header and opened afresh. *)
Record Counts (s s' : State) : Prop := mkCounts {
  counts_out_type : out_type s' = out_type s;
  counts_dir : dir s' = dir s;
  counts_new : exists new,
    trace s' = (trace s ++ new)%list
    /\ rows_opened s' = (rows_opened s + rows_written new)%nat
    /\ _file_count s'
       = (if out_type s =? SINGLE_FILE then _file_count s
          else (_file_count s + length (targets new))%nat)
    /\ ((out_type s =? SINGLE_FILE) = false ->
        targets new
        = (numbered (dir s) <$> seq (S (_file_count s)) (length (targets new)))
        /\ Forall (fun h => h = true) (header_flags new)
        /\ Forall (fun m => m = "w") (modes new))
}.




(** A computation keeps the relation [R] between the state it starts
    in and the state it leaves, however it ends. *)
Definition kept_by (R : State -> State -> Prop) {A} (c : M State A) : Prop :=
  forall s, R s (final_state (c s)).

(** A decoder that writes one file per table. *)
Definition separate : State :=
  init "utf-8" "/in" DecoderSamples.two_columns SEPARATE_FILES "out.csv" 7 [].

End DecoderMore.

(** * Properties of [SettingOption] *)

Module SettingsProps.
Import Settings Samples.

Lemma get_val_set_val v c : get_val (set_val v c) = v.
Proof. reflexivity. Qed.

(** The hook, when one is declared, is entered exactly once by
    [run_after], on the value the cell reads at that moment. *)
Lemma run_after_events o st :
  events (final_state (run_after o st))
  = (events st ++ match after o with
                  | Some _ => [EvAfter (value st)]
                  | None => []
                  end)%list.
Proof.
  unfold run_after. destruct (after o) as [hook|]; simpl.
  - by destruct (hook _).
  - by rewrite app_nil_r.
Qed.

(** C1: on a boolean option the texts "0" and "false" leave the setter
    at once, with the state as it was: nothing is stored in the cell
    and the post-set hook is not entered.  The texts "1" and "true"
    store the boolean true and go on to the post-set hook, which (when
    declared) is entered once and sees the value true. *)
Theorem boolean_false_text_short_circuits (o : SettingOption) (st : State) :
  method o = DEFINE_boolean ->
  value_setter o (VStr "0") st = Returned tt st
  /\ value_setter o (VStr "false") st = Returned tt st
  /\ value_setter o (VStr "1") st = run_after o (store (VBool true) st)
  /\ value_setter o (VStr "true") st = run_after o (store (VBool true) st)
  /\ value (store (VBool true) st) = VBool true
  /\ value_explicitly_set (store (VBool true) st) = true
  /\ events (final_state (run_after o (store (VBool true) st)))
     = (events st ++ match after o with
                     | Some _ => [EvAfter (VBool true)]
                     | None => []
                     end)%list.
Proof.
  intros Hm. unfold value_setter. rewrite Hm. simpl.
  repeat split; try reflexivity.
  by rewrite run_after_events.
Qed.

Lemma boolean_false_text_short_circuits_witness :
  method bool_option = DEFINE_boolean
  /\ value_setter bool_option (VStr "0") (console []) = Returned tt (console [])
  /\ value_explicitly_set
       (final_state (value_setter bool_option (VStr "0") (console []))) = false
  /\ events (final_state (value_setter bool_option (VStr "1") (console [])))
     = [EvAfter (VBool true)].
Proof.
  split; [reflexivity|].
  pose proof (boolean_false_text_short_circuits bool_option (console []) eq_refl)
    as (H0 & _ & H1 & _ & _ & _ & Hev).
  split; [exact H0|]. split; [by rewrite H0|].
  rewrite H1. exact Hev.
Defined.

(** C4: when the number of inputs supplied to [set_value] (those that
    differ from the empty text) is not one, the call raises
    [FlagMakerInputError] in its first pass, with the state untouched. *)
Theorem set_value_needs_exactly_one_source (o : SettingOption) (v : Val)
    (prompt : string) (init : Val) (st : State) (fuel : nat) :
  length (filter (fun b => b = true)
            [ne_empty v; negb (String.eqb prompt ""); ne_empty init]) ≠ 1%nat ->
  set_value (S fuel) o v prompt init st = Some (Raised FlagMakerInputError st).
Proof.
  intros H. simpl. unfold set_value_body, num_opts.
  destruct (ne_empty v), (negb (String.eqb prompt "")), (ne_empty init);
    simpl in *; try reflexivity; by destruct H.
Qed.

Lemma set_value_needs_exactly_one_source_witness :
  set_value 1 int_option (VStr "") "" (VStr "") (console ["7"])
    = Some (Raised FlagMakerInputError (console ["7"]))
  /\ set_value 1 int_option (VStr "7") "How many: " (VStr "") (console ["7"])
    = Some (Raised FlagMakerInputError (console ["7"]))
  /\ set_value 1 int_option (VStr "7") "How many: " VNone (console ["7"])
    = Some (Raised FlagMakerInputError (console ["7"])).
Proof.
  split; [|split];
    apply set_value_needs_exactly_one_source; vm_compute; lia.
Defined.

(** C6: in programmatic-init mode (only [init] supplied) a [None]
    returns at once and leaves the whole state, the cell included, as it
    was; any other [init] is stored in the cell as it is and the call
    returns: no coercion by the option's method, no post-set hook, no
    validation, no change of the error flag. *)
Theorem programmatic_init_stores_directly (o : SettingOption) (init : Val)
    (st : State) (fuel : nat) :
  ne_empty init = true ->
  set_value (S fuel) o (VStr "") "" init st
  = Some (Returned tt (if is_none init then st else store init st))
  /\ (init = VNone ->
      value_explicitly_set st = false ->
      forall st', set_value (S fuel) o (VStr "") "" init st = Some (Returned tt st') ->
                  value_explicitly_set st' = false)
  /\ value (store init st) = init
  /\ events (store init st) = events st
  /\ error (store init st) = error st.
Proof.
  intros Hi. split; [|repeat split].
  - simpl. unfold set_value_body, num_opts. rewrite Hi. simpl.
    destruct (is_none init); reflexivity.
  - intros -> Hu st' H. simpl in H. by injection H as <-.
Qed.

Lemma programmatic_init_stores_directly_witness :
  set_value 1 int_option_refused (VStr "") "" VNone (console [])
    = Some (Returned tt (console []))
  /\ set_value 1 int_option_refused (VStr "") "" (VStr "abc") (console [])
    = Some (Returned tt (store (VStr "abc") (console []))).
Proof.
  split.
  - exact (proj1 (programmatic_init_stores_directly
                    int_option_refused VNone (console []) 0 eq_refl)).
  - exact (proj1 (programmatic_init_stores_directly
                    int_option_refused (VStr "abc") (console []) 0 eq_refl)).
Defined.




(** C2, at the failing input: an integer option whose hook refuses the
    value, prompted on a console that holds "5" and then "6".  The 5 is
    stored, the hook refuses it, and the unwinding assignment of [None]
    goes through [int] and raises [TypeError]: the call ends there, the
    cell still holds 5 and "6" is never asked for. *)
Theorem unwinding_raises_on_integer_option :
  exists st',
    set_value 5 int_option_refused (VStr "") "How many: " (VStr "")
              (console ["5"; "6"])
      = Some (Raised TypeError st')
    /\ value st' = VInt 5
    /\ value_explicitly_set st' = true
    /\ error st' = true
    /\ stdin st' = ["6"]
    /\ events st' = [EvInput "How many: "; EvAfter (VInt 5)].
Proof. eexists. split; [vm_compute; reflexivity|]. repeat split. Qed.

(** On an option that is neither boolean nor integer, whose hook only
    inspects, a refused console line is undone through the setter: the
    cell is assigned [None], the hook is entered a second time on that
    [None], and the loop goes round to prompt again. *)
Lemma unwinding_retries_on_text_option (o : SettingOption) (check : Val -> Val)
    (prompt line : string) (rest : list string) (st : State) (fuel : nat) :
  method o = DEFINE_string ->
  after o = Some (fun w => HReturn (check (get_val (hv_cell w))) w) ->
  prompt ≠ "" ->
  stdin st = line :: rest ->
  line ≠ "" ->
  truthy (check (VStr line)) = false ->
  exists st',
    set_value (S fuel) o (VStr "") prompt (VStr "") st
      = set_value fuel o (VStr "") prompt (VStr "") st'
    /\ value st' = VNone
    /\ stdin st' = rest
    /\ events st'
       = (events st ++ [EvInput prompt; EvAfter (VStr line); EvAfter VNone])%list.
Proof.
  intros Hm Ha Hp Hin Hl Hc. eexists. split.
  - cbn [set_value]. unfold set_value_body, num_opts.
    apply String.eqb_neq in Hp, Hl. rewrite Hp. simpl.
    unfold bind at 1. unfold input. rewrite Hin, Hl. simpl.
    unfold bind, value_setter, run_after. rewrite Hm, Ha. simpl.
    rewrite !get_val_set_val, Hc. simpl. reflexivity.
  - simpl. repeat split. by rewrite <- !app_assoc.
Qed.

(** The same failure on any integer option: whenever the hook returns a
    falsy value for the integer read from the console, the unwinding
    raises [TypeError] and the state is the one the hook left. *)
Lemma unwinding_raises_on_any_integer_option (o : SettingOption) (hook : Hook)
    (prompt line : string) (rest : list string) (z : Z) (r : Val) (w : HookView)
    (st : State) (fuel : nat) :
  method o = DEFINE_integer ->
  after o = Some hook ->
  prompt ≠ "" ->
  stdin st = line :: rest ->
  line ≠ "" ->
  int_of_str line = Some z ->
  let asked := emit (EvAfter (VInt z))
                 (store (VInt z) (emit (EvInput prompt) (with_stdin rest st))) in
  hook (view asked) = HReturn r w ->
  truthy r = false ->
  set_value (S fuel) o (VStr "") prompt (VStr "") st
  = Some (Raised TypeError (with_error true (with_view w asked))).
Proof.
  intros Hm Ha Hp Hin Hl Hz asked Hh Hr.
  cbn [set_value]. unfold set_value_body, num_opts.
  apply String.eqb_neq in Hp, Hl. rewrite Hp. simpl.
  unfold bind at 1. unfold input. rewrite Hin, Hl. simpl.
  unfold bind at 1. unfold bind at 1. unfold value_setter at 1.
  rewrite Hm. simpl. rewrite Hz. unfold bind at 1. simpl.
  unfold run_after at 1. rewrite Ha.
  change (value (store (VInt z) (emit (EvInput prompt) (with_stdin rest st))))
    with (VInt z).
  fold asked. rewrite Hh, Hr. simpl.
  unfold bind, value_setter. rewrite Hm. reflexivity.
Qed.

(** A text option whose hook refuses everything asks again for as long as
    the console has lines, undoing each through the setter, and stops
    with [EOFError] when the console is empty. *)
Example text_option_asks_again :
  exists st',
    set_value 5 text_option_refused (VStr "") "Bucket: " (VStr "") (console ["x"; "y"])
      = Some (Raised EOFError st')
    /\ value st' = VNone
    /\ events st'
       = [EvInput "Bucket: "; EvAfter (VStr "x"); EvAfter VNone;
          EvInput "Bucket: "; EvAfter (VStr "y"); EvAfter VNone;
          EvInput "Bucket: "].
Proof. eexists. split; [vm_compute; reflexivity|]. split; reflexivity. Qed.

Example int_examples :
  int (VStr " 1_000 ") = inl 1000 /\ int (VStr "-07") = inl (-7)
  /\ int (VStr "abc") = inr ValueError /\ int (VStr "") = inr ValueError
  /\ int (VStr "1__0") = inr ValueError /\ int (VStr "5_") = inr ValueError
  /\ int VNone = inr TypeError /\ int (VBool true) = inl 1.
Proof. repeat split. Qed.

End SettingsProps.

(** * Properties of [Decoder] *)


Module DecoderProps.
Import Decoder DecoderAux DecoderSamples.

(** *** The map and the renaming of columns *)









(** *** Writing *)

Lemma trace_emit e s : trace (emit e s) = (trace s ++ [e])%list.
Proof. reflexivity. Qed.

(** [write] always returns; it adds one [to_csv] call to the trace and
    touches nothing but the flag, the counters and the trace. *)
Lemma write_spec (df : DataFrame) (s : State) :
  exists s',
    write df s = Returned tt s'
    /\ map s' = map s /\ out_type s' = out_type s /\ dest s' = dest s
    /\ dir s' = dir s /\ clock s' = clock s /\ tmp s' = tmp s
    /\ first s' = (if out_type s =? SINGLE_FILE then false else first s)
    /\ trace s'
       = (trace s
          ++ [ToCsv (format_dir (dir s) ++ "/"
                     ++ (if out_type s =? SINGLE_FILE then dest s
                         else pretty (S (_file_count s))))
                    (if out_type s =? SINGLE_FILE then first s else true)
                    (if out_type s =? SINGLE_FILE then "a" else "w")
                    (values (map s))
                    (rename (rename_columns (map s)) df)])%list.
Proof.
  unfold write, bind, gets, modify, filename, ret.
  destruct (out_type s =? SINGLE_FILE) eqn:E; [destruct (first s) eqn:F|];
    simpl; rewrite ?E; simpl; eexists; (split; [reflexivity|]);
    simpl; rewrite ?F; repeat split.
Qed.

(** *** The encoding fallback *)





(** *** What the traversal keeps *)

Lemma header_flags_app t u :
  header_flags (t ++ u) = (header_flags t ++ header_flags u)%list.
Proof. apply omap_app. Qed.

Lemma expected_flags_false n : expected_flags false n = replicate n false.
Proof. by destruct n. Qed.

Lemma expected_flags_app (b : bool) (f1 f2 : list bool) :
  f1 = expected_flags b (length f1) ->
  f2 = expected_flags (b && no_flags f1) (length f2) ->
  (f1 ++ f2)%list = expected_flags b (length (f1 ++ f2)).
Proof.
  intros H1 H2. destruct f1 as [|x t]; simpl in *.
  - by rewrite andb_true_r in H2.
  - rewrite andb_false_r, expected_flags_false in H2.
    injection H1 as -> Ht. rewrite length_app, replicate_add.
    by rewrite <- Ht, <- H2.
Qed.

Lemma no_flags_app (f1 f2 : list bool) :
  no_flags (f1 ++ f2) = no_flags f1 && no_flags f2.
Proof. by destruct f1. Qed.

Lemma extraction_dir_weaken d lo hi lo' hi' :
  extraction_dir d lo hi -> (lo' <= lo)%nat -> (hi <= hi')%nat ->
  extraction_dir d lo' hi'.
Proof. intros (c & Hc & Hd) ? ?. exists c. split; [lia|done]. Qed.

Lemma merged_write_same s s' e :
  map s' = map s -> dest s' = dest s -> dir s' = dir s ->
  merged_write s' e -> merged_write s e.
Proof. intros Hm Hd Hdir. destruct e; simpl; try done. by rewrite Hm, Hd, Hdir. Qed.

Lemma Step_refl s : Step s s.
Proof.
  split; try done.
  - by left.
  - exists []. rewrite app_nil_r. split; [done|]. intros _.
    split; [constructor|]. split; [done|]. simpl. by rewrite andb_true_r.
Qed.

Lemma Step_trans s1 s2 s3 : Step s1 s2 -> Step s2 s3 -> Step s1 s3.
Proof.
  intros [Hm Ho Hd Hdir Hc Htmp (new1 & Ht1 & Hh1)]
         [Hm' Ho' Hd' Hdir' Hc' Htmp' (new2 & Ht2 & Hh2)].
  split; try congruence.
  - lia.
  - intros d Hin. destruct (Htmp d Hin) as [Hin2|Hx].
    + destruct (Htmp' d Hin2) as [Hin3|Hx]; [by left|right].
      eapply extraction_dir_weaken; [done|lia|lia].
    + right. eapply extraction_dir_weaken; [done|lia|lia].
  - exists (new1 ++ new2)%list. split; [by rewrite Ht2, Ht1, app_assoc|].
    intros Hs. destruct (Hh1 Hs) as (Hw1 & Hf1 & Hb1).
    destruct Hh2 as (Hw2 & Hf2 & Hb2); [congruence|].
    split; [|split].
    + apply Forall_app. split; [done|].
      eapply Forall_impl; [exact Hw2|]. intros e. by apply merged_write_same.
    + rewrite header_flags_app. apply expected_flags_app; [done|].
      by rewrite <- Hb1.
    + by rewrite Hb2, Hb1, header_flags_app, no_flags_app, andb_assoc.
Qed.

Lemma preserves_ret {A} (a : A) : preserves (ret a).
Proof. intros s. apply Step_refl. Qed.

Lemma preserves_raise {A} (e : Exn) : preserves (raise (A := A) e).
Proof. intros s. apply Step_refl. Qed.

Lemma preserves_gets {A} (f : State -> A) : preserves (gets f).
Proof. intros s. apply Step_refl. Qed.

Lemma preserves_bind {A B} (c : M State A) (k : A -> M State B) :
  preserves c -> (forall a, preserves (k a)) -> preserves (bind c k).
Proof.
  intros Hc Hk s. unfold bind. specialize (Hc s).
  destruct (c s) as [a s'|e s']; simpl in *; [|done].
  eapply Step_trans; [exact Hc|apply Hk].
Qed.

(** An event other than a [to_csv] call only lengthens the trace. *)
Lemma Step_emit (e : Event) (s : State) :
  header_flags [e] = [] -> Step s (emit e s).
Proof.
  intros He. split; try done.
  - by left.
  - exists [e]. split; [done|]. intros _. rewrite He. simpl.
    rewrite andb_true_r. split; [|done].
    constructor; [|constructor]. by destruct e.
Qed.

Lemma preserves_emit (e : Event) :
  header_flags [e] = [] -> preserves (modify (emit e)).
Proof. intros He s. by apply Step_emit. Qed.

Lemma preserves_write (df : DataFrame) : preserves (write df).
Proof.
  intros s.
  destruct (write_spec df s) as (s' & Hw & Hm & Ho & Hd & Hdir & Hc & Htmp & Hf & Ht).
  rewrite Hw. simpl. split; try done.
  - lia.
  - intros d Hin. left. by rewrite Htmp.
  - eexists. split; [exact Ht|]. intros Hs.
    unfold SINGLE_FILE in *. rewrite Hs in *. simpl.
    split; [|split].
    + by repeat constructor.
    + done.
    + by rewrite Hf, andb_false_r.
Qed.

Lemma preserves_time : preserves time.
Proof.
  intros s. simpl. split; try done; simpl.
  - lia.
  - by left.
  - exists []. rewrite app_nil_r. split; [done|]. intros _.
    split; [constructor|]. split; [done|]. simpl. by rewrite andb_true_r.
Qed.

Lemma preserves_extractall (d : string) : preserves (extractall d).
Proof.
  intros s. unfold extractall, modify. simpl.
  eapply Step_trans; [|by apply Step_emit].
  case_bool_decide; [apply Step_refl|].
  split; try done; simpl.
  - intros d' Hin. left. by right.
  - exists []. rewrite app_nil_r. split; [done|]. intros _.
    split; [constructor|]. split; [done|]. simpl. by rewrite andb_true_r.
Qed.

Lemma preserves_decode_csv_loop (encs : list string) (r : Reads) (p : string) :
  preserves (decode_csv_loop encs r p).
Proof.
  induction encs as [|encoding rest IH]; simpl; [apply preserves_ret|].
  apply preserves_bind; [by apply preserves_emit|]. intros _.
  destruct (csv r encoding) as [df|e].
  - apply preserves_bind; [apply preserves_write|]. intros _.
    by apply preserves_emit.
  - destruct (is_unicode_error e); [|apply preserves_raise].
    destruct (String.eqb encoding "latin-1"); [apply preserves_raise|].
    apply preserves_bind; [by apply preserves_emit|]. by intros _.
Qed.

Lemma preserves_decode_excel (r : Reads) (p : string) :
  preserves (decode_excel r p).
Proof.
  unfold decode_excel.
  apply preserves_bind; [by apply preserves_emit|]. intros _.
  destruct (excel r) as [df|e]; [|apply preserves_raise].
  apply preserves_bind; [apply preserves_write|]. intros _.
  by apply preserves_emit.
Qed.

Lemma preserves_FileDecoder_run (r : Reads) (p : string) :
  preserves (FileDecoder_run r p).
Proof.
  intros s. unfold FileDecoder_run.
  pose proof (preserves_decode_excel r p s) as H.
  destruct (decode_excel r p s) as [[] s'|e s']; simpl in *; [done|].
  destruct e; simpl; try done.
  eapply Step_trans; [exact H|]. apply preserves_decode_csv_loop.
Qed.

Lemma preserves_DirectoryDecoder_run (choose : Node -> string -> M State unit)
    (p : string) (listing : list (string * Node)) :
  Forall (fun e => forall q, preserves (choose e.2 q)) listing ->
  preserves (DirectoryDecoder_run choose p listing).
Proof.
  induction 1 as [|[name child] rest Hc _ IH]; simpl; [apply preserves_ret|].
  apply preserves_bind; [apply Hc|]. by intros _.
Qed.

(** Removing a directory that was stamped since [s0] is a step from [s0]. *)
Lemma Step_rmtree (s0 s : State) (d : string) :
  Step s0 s -> extraction_dir d (clock s0) (clock s) ->
  Step s0 (final_state (rmtree d s)).
Proof.
  intros H Hd. unfold rmtree. case_bool_decide; simpl; [|done].
  destruct H as [Hm Ho Hdst Hdir Hc Htmp (new & Ht & Hh)].
  split; try done; simpl.
  - intros d' Hin. destruct (Htmp d' Hin) as [Hin'|Hx]; [|by right].
    destruct (decide (d' = d)) as [->|Hne]; [by right|left].
    by apply list_elem_of_filter.
  - exists (new ++ [RemovedTree d])%list. split; [by rewrite Ht, app_assoc|].
    intros Hs. destruct (Hh Hs) as (Hw & Hf & Hb).
    rewrite header_flags_app. simpl. rewrite app_nil_r.
    split; [|done]. apply Forall_app. split; [done|]. by repeat constructor.
Qed.

Lemma preserves_archive_run (choose : Node -> string -> M State unit)
    (prefix : string) (members : list (string * Node)) :
  prefix = "/tmp/tar-output-" \/ prefix = "/tmp/zip-output-" ->
  Forall (fun e => forall q, preserves (choose e.2 q)) members ->
  preserves (archive_run choose prefix members).
Proof.
  intros Hp Hall s. unfold archive_run.
  unfold bind at 1. simpl. unfold bind at 1. simpl.
  set (d := prefix ++ pretty (clock s)).
  set (s2 := emit _ _).
  assert (H02 : Step s s2).
  { eapply Step_trans; [apply (preserves_time s)|]. simpl.
    apply (preserves_extractall d). }
  assert (Hclock : (S (clock s) <= clock s2)%nat).
  { subst s2. simpl. by case_bool_decide. }
  pose proof (preserves_DirectoryDecoder_run choose d members Hall s2) as H23.
  unfold bind.
  clearbody s2.
  destruct (DirectoryDecoder_run choose d members s2) as [[] s3|e s3]; simpl in *.
  - apply Step_rmtree; [by eapply Step_trans|].
    exists (clock s). split; [|subst d; destruct Hp as [-> | ->]; auto].
    destruct H23 as [_ _ _ _ Hc _ _]. lia.
  - by eapply Step_trans.
Qed.

Lemma preserves_ChooseyDecoder_run (n : Node) :
  forall p, preserves (ChooseyDecoder_run n p).
Proof.
  induction n as [entries IH|r|r members IH|r members IH] using Node_ind;
    intros p; simpl.
  - by apply preserves_DirectoryDecoder_run.
  - destruct (_ || _); [apply preserves_FileDecoder_run|by apply preserves_emit].
  - destruct (_ || _); [apply preserves_FileDecoder_run|].
    apply preserves_archive_run; auto.
  - destruct (_ || _); [apply preserves_FileDecoder_run|].
    apply preserves_archive_run; auto.
Qed.

(** *** The merged output *)


Lemma run_final_state (root : Node) (s : State) :
  "/tmp/updir-" ++ pretty (clock s) ∉ tmp s ->
  final_state (run root s)
  = final_state (ChooseyDecoder_run root (path s) (started s)).
Proof.
  intros Hfresh. unfold run, bind, time, modify, mkdir, gets, ret. simpl.
  rewrite bool_decide_eq_false_2 by done.
  fold (started s). change (path (started s)) with (path s).
  by destruct (ChooseyDecoder_run root (path s) (started s)).
Qed.



(** *** The scratch directory of an archive *)





(** *** A run on a small tree *)

(** A merged run over [mixed_directory]: both tables are read after the
    utf-8 attempt fails, the file that is no table is skipped, the zip
    archive is unpacked and its directory removed, and the two writes
    carry the header first and not again. *)
Example merged_run_on_mixed_directory :
  exists s',
    run mixed_directory merged = Returned "/tmp/updir-7/out.csv" s'
    /\ header_flags (trace s') = [true; false]
    /\ csv_reads (trace s') = ["utf-8"; "utf-16"; "utf-8"; "utf-16"]
    /\ columns <$> frames_written (trace s')
       = [["account_name"; "revenue"; "extra"]; ["account_name"; "revenue"]]
    /\ removed (trace s') = ["/tmp/zip-output-8"]
    /\ tmp s' = ["/tmp/updir-7"]
    /\ rows_opened s' = 2%nat.
Proof.
  eexists. split; [vm_compute; reflexivity|].
  repeat (split; [vm_compute; reflexivity|]). vm_compute; reflexivity.
Qed.

End DecoderProps.

(** * The scratch dictionary of [SettingOption] *)

Module ObjectsProps.
Import Objects.

Lemma class_heap_holds_custom_data :
  objects class_heap !! custom_data_object = Some (ODict ∅).
Proof. unfold class_heap, alloc. cbn [fst snd objects next]. apply lookup_insert_eq. Qed.

(** [create] binds eight names and [__init__] one; [custom_data] is not
    among them, so the attribute is found in the class. *)
Lemma create_custom_data (a : CreateArgs) (h : Heap) :
  getattr (create a h).1 "custom_data" = Some (Ref custom_data_object).
Proof.
  unfold getattr, create, new, alloc. cbn [fst snd].
  rewrite !lookup_insert_ne by done. rewrite lookup_empty.
  unfold class_namespace. rewrite !lookup_insert_ne by done.
  apply lookup_insert_eq.
Qed.

(** Making an option leaves the objects that exist where they are. *)
Lemma create_keeps (a : CreateArgs) (h : Heap) (l : nat) :
  (l < next h)%nat ->
  objects (create a h).2 !! l = objects h !! l /\ (l < next (create a h).2)%nat.
Proof.
  intros Hl. unfold create, new, alloc. cbn [fst snd objects next].
  split; [|lia]. apply lookup_insert_ne. lia.
Qed.

(** C10: [custom_data] is bound once, in the class.  Two options made
    by [create], with whatever arguments and in whatever order after
    the class statement, resolve the attribute to the same dictionary
    object, and a key written through the first is read back through
    the second. *)
Theorem custom_data_is_shared (a b : CreateArgs) (k : string) (v : Val) :
  let '(first_option, h1) := create a class_heap in
  let '(second_option, h2) := create b h1 in
  getattr first_option "custom_data" = Some (Ref custom_data_object)
  /\ getattr second_option "custom_data" = getattr first_option "custom_data"
  /\ exists h3,
       custom_data_setitem first_option k v h2 = Some h3
       /\ custom_data_getitem second_option k h3 = Some v
       /\ custom_data_getitem first_option k h3 = Some v.
Proof.
  pose proof (create_custom_data a class_heap) as Ha.
  destruct (create a class_heap) as [first_option h1] eqn:E1.
  pose proof (create_custom_data b h1) as Hb.
  pose proof (create_keeps a class_heap custom_data_object) as Hk1.
  rewrite E1 in Hk1. cbn [fst snd] in Ha, Hk1.
  destruct Hk1 as [Ho1 Hn1];
    [unfold class_heap, custom_data_object, alloc; cbn [snd next]; lia|].
  pose proof (create_keeps b h1 custom_data_object Hn1) as [Ho2 _].
  destruct (create b h1) as [second_option h2] eqn:E2. cbn [fst snd] in Hb, Ho2.
  split; [done|]. split; [congruence|].
  unfold custom_data_setitem, custom_data_getitem. rewrite Ha, Hb.
  rewrite Ho2, Ho1, class_heap_holds_custom_data.
  eexists. split; [reflexivity|]. cbn [objects].
  by rewrite !lookup_insert_eq.
Qed.

End ObjectsProps.

(** * More on the loop of [set_value] *)

Module SettingsExtra.
Import Settings Samples.

(** The setter and the end of the loop body leave the console alone. *)
Lemma run_after_stdin o st : stdin (final_state (run_after o st)) = stdin st.
Proof.
  unfold run_after. destruct (after o) as [hook|]; simpl; [|done].
  by destruct (hook _).
Qed.

Lemma value_setter_stdin o v st :
  stdin (final_state (value_setter o v st)) = stdin st.
Proof.
  assert (Hstore : forall w, stdin (final_state ((modify (store w) ;;; run_after o) st))
                             = stdin st).
  { intros w. unfold bind, modify. simpl. by rewrite run_after_stdin. }
  unfold value_setter. destruct (method o); try apply Hstore.
  - destruct (eq_str v "1" || eq_str v "true"); [apply Hstore|].
    destruct (eq_str v "0" || eq_str v "false"); [done|apply Hstore].
  - destruct (int v); [apply Hstore|done].
Qed.

Lemma validate_and_finish_stdin o st :
  stdin (final_state (validate_and_finish o st)) = stdin st.
Proof.
  unfold validate_and_finish, bind, gets. simpl.
  destruct (validate o st); simpl; [|done].
  by destruct (value_explicitly_set st || negb (required o)).
Qed.

(** A pass of the loop in prompt mode that ends without raising has
    taken exactly one line from the console. *)
Lemma prompt_pass_takes_a_line o prompt st step st' :
  prompt ≠ "" ->
  set_value_body o (VStr "") prompt (VStr "") st = Returned step st' ->
  S (length (stdin st')) = length (stdin st).
Proof.
  intros Hp%String.eqb_neq. unfold set_value_body, num_opts. rewrite Hp. simpl.
  unfold bind at 1. unfold input.
  destruct (stdin st) as [|line rest] eqn:Hin; [done|].
  set (st1 := emit (EvInput prompt) (with_stdin rest st)).
  assert (H1 : stdin st1 = rest) by done. clearbody st1.
  set (chosen := if (line =? "")%string && negb (is_none (default o))
                 then value_setter o (default o) else value_setter o (VStr line)).
  assert (Hc : exists v, chosen = value_setter o v)
    by (subst chosen; destruct (_ && _); eauto).
  destruct Hc as [v ->].
  unfold bind at 1.
  pose proof (value_setter_stdin o v st1) as H2.
  destruct (value_setter o v st1) as [[] st2|e st2]; [|done]. simpl in H2.
  unfold bind at 1, gets at 1.
  destruct (error st2).
  - unfold bind. pose proof (value_setter_stdin o VNone st2) as H3.
    destruct (value_setter o VNone st2) as [[] st3|e st3]; [|done].
    simpl in H3. intros [= _ <-]. simpl. congruence.
  - intros H. pose proof (validate_and_finish_stdin o st2) as H3.
    rewrite H in H3. simpl in H3. simpl. congruence.
Qed.

(** X1: in prompt mode every pass of the loop reads a line, so on a
    console of [n] lines the loop ends, by returning or by raising,
    within [n + 1] passes. *)
Theorem prompt_loop_ends_with_the_console (o : SettingOption) (prompt : string)
    (st : State) (fuel : nat) :
  prompt ≠ "" ->
  (length (stdin st) < fuel)%nat ->
  exists r, set_value fuel o (VStr "") prompt (VStr "") st = Some r.
Proof.
  intros Hp. revert st.
  induction fuel as [|fuel IH]; intros st Hlen; [lia|].
  simpl.
  destruct (set_value_body o (VStr "") prompt (VStr "") st) as [[] st'|e st'] eqn:E;
    eauto.
  apply IH. apply prompt_pass_takes_a_line in E; [lia|done].
Qed.

Lemma prompt_loop_ends_with_the_console_witness :
  exists r,
    set_value 3 text_option_refused (VStr "") "Bucket: " (VStr "") (console ["x"; "y"])
    = Some r.
Proof.
  apply prompt_loop_ends_with_the_console; [discriminate|simpl; lia].
Defined.

(** X2: in direct-value mode the text "0" or "false" given to a required
    boolean option whose cell is unset never lets [set_value] return:
    the setter leaves at once, the cell stays unset, and the loop goes
    round again with the same value, whatever the number of passes. *)
Theorem direct_false_on_required_boolean_never_returns (o : SettingOption)
    (v : Val) (st : State) (fuel : nat) :
  method o = DEFINE_boolean ->
  required o = true ->
  v = VStr "0" \/ v = VStr "false" ->
  value_explicitly_set st = false ->
  set_value fuel o v "" (VStr "") st = None.
Proof.
  intros Hm Hr Hv. revert st.
  induction fuel as [|fuel IH]; intros st Hu; [done|].
  simpl. unfold set_value_body, num_opts.
  assert (Hne : ne_empty v = true) by (by destruct Hv as [-> | ->]).
  rewrite Hne. simpl.
  assert (Hs : value_setter o v st = Returned tt st).
  { unfold value_setter. rewrite Hm. by destruct Hv as [-> | ->]. }
  unfold bind. rewrite Hs. unfold gets, validate_and_finish, bind, gets.
  destruct (validate o st); simpl; [|by apply IH].
  rewrite Hu, Hr. simpl. by apply IH.
Qed.

Lemma direct_false_on_required_boolean_never_returns_witness :
  set_value 50 bool_option (VStr "false") "" (VStr "") (console []) = None.
Proof.
  apply direct_false_on_required_boolean_never_returns;
    [reflexivity | reflexivity | by right | reflexivity].
Defined.

(** The setter of an option that is neither boolean nor integer and has
    no hook: the value is stored and the error flag cleared. *)
Lemma value_setter_plain o v st :
  method o ≠ DEFINE_boolean -> method o ≠ DEFINE_integer -> after o = None ->
  value_setter o v st = Returned tt (with_error false (store v st)).
Proof.
  intros Hb Hi Ha. unfold value_setter, bind, modify, run_after.
  destruct (method o); try done; simpl; by rewrite Ha.
Qed.

(** X3: in direct-value mode a value the validator rejects never lets
    [set_value] return (option without hook, neither boolean nor
    integer): each pass stores the same value, the validator rejects it
    again, and the loop continues. *)
Theorem direct_value_rejected_by_validator_never_returns (o : SettingOption)
    (p : Val -> bool) (v : Val) (st : State) (fuel : nat) :
  method o ≠ DEFINE_boolean ->
  method o ≠ DEFINE_integer ->
  after o = None ->
  validation o = Some p ->
  ne_empty v = true ->
  p v = false ->
  set_value fuel o v "" (VStr "") st = None.
Proof.
  intros Hb Hi Ha Hval Hne Hp. revert st.
  induction fuel as [|fuel IH]; intros st; [done|].
  simpl. unfold set_value_body, num_opts. rewrite Hne. simpl.
  unfold bind at 1. rewrite value_setter_plain by done.
  unfold validate_and_finish, bind, gets, validate. rewrite Hval.
  change (value (with_error false (store v st))) with v. rewrite Hp. simpl.
  apply IH.
Qed.

Lemma direct_value_rejected_by_validator_never_returns_witness :
  set_value 50 SettingsMore.text_option_validated (VStr "no") "" (VStr "") (console [])
  = None.
Proof.
  apply (direct_value_rejected_by_validator_never_returns
           _ (fun v => eq_str v "ok"));
    [discriminate | discriminate | reflexivity | reflexivity
     | reflexivity | reflexivity].
Defined.

(** X4: a required boolean option cannot be answered with "0" or
    "false" at the prompt.  On a console that holds only such lines the
    loop asks once per line and once more, never enters the hook, leaves
    the cell unset and ends with [EOFError]. *)
Theorem required_boolean_rejects_false_answers (o : SettingOption)
    (prompt : string) (st : State) (fuel : nat) :
  method o = DEFINE_boolean ->
  required o = true ->
  prompt ≠ "" ->
  Forall (fun line => line = "0" \/ line = "false") (stdin st) ->
  value_explicitly_set st = false ->
  error st = false ->
  (length (stdin st) < fuel)%nat ->
  exists st',
    set_value fuel o (VStr "") prompt (VStr "") st = Some (Raised EOFError st')
    /\ value_explicitly_set st' = false
    /\ SettingsMore.hook_runs (events st') = SettingsMore.hook_runs (events st)
    /\ SettingsMore.prompts (events st')
       = (SettingsMore.prompts (events st)
          ++ replicate (S (length (stdin st))) prompt)%list.
Proof.
  intros Hm Hr Hp%String.eqb_neq. revert st.
  induction fuel as [|fuel IH]; intros st Hall Hu He Hlen; [lia|].
  simpl. unfold set_value_body, num_opts. rewrite Hp. simpl.
  unfold bind at 1. unfold input.
  destruct (stdin st) as [|line rest] eqn:Hin.
  - eexists. split; [reflexivity|]. simpl. split; [done|].
    unfold SettingsMore.hook_runs, SettingsMore.prompts.
    rewrite !omap_app. simpl. by rewrite app_nil_r.
  - apply Forall_cons in Hall as [Hline Hall].
    assert (Hl : (line =? "")%string = false) by (by destruct Hline as [-> | ->]).
    rewrite Hl. simpl.
    set (st1 := emit (EvInput prompt) (with_stdin rest st)).
    assert (Hs : value_setter o (VStr line) st1 = Returned tt st1).
    { unfold value_setter. rewrite Hm. by destruct Hline as [-> | ->]. }
    unfold bind at 1. rewrite Hs. unfold bind at 1, gets at 1.
    change (error st1) with (error st). rewrite He.
    unfold validate_and_finish, bind, gets.
    assert (Hu1 : value_explicitly_set st1 = false) by done.
    assert (Hnext : forall st2,
              stdin st2 = rest -> value_explicitly_set st2 = false ->
              error st2 = false ->
              SettingsMore.hook_runs (events st2) = SettingsMore.hook_runs (events st) ->
              SettingsMore.prompts (events st2)
              = (SettingsMore.prompts (events st) ++ [prompt])%list ->
              exists st',
                set_value fuel o (VStr "") prompt (VStr "") st2
                = Some (Raised EOFError st')
                /\ value_explicitly_set st' = false
                /\ SettingsMore.hook_runs (events st')
                   = SettingsMore.hook_runs (events st)
                /\ SettingsMore.prompts (events st')
                   = (SettingsMore.prompts (events st)
                      ++ replicate (S (length (line :: rest))) prompt)%list).
    { intros st2 H2 Hu2 He2 Hh2 Hp2.
      destruct (IH st2) as (st' & Hrun & Hu' & Hh' & Hp'); try done.
      - by rewrite H2.
      - rewrite H2. simpl in Hlen. lia.
      - exists st'. split; [done|]. split; [done|]. split; [congruence|].
        rewrite Hp', Hp2, H2. simpl. by rewrite <- app_assoc. }
    assert (Hpr : SettingsMore.prompts (events st1)
                  = (SettingsMore.prompts (events st) ++ [prompt])%list).
    { unfold SettingsMore.prompts. simpl. by rewrite omap_app. }
    assert (Hhr : SettingsMore.hook_runs (events st1)
                  = SettingsMore.hook_runs (events st)).
    { unfold SettingsMore.hook_runs. simpl. rewrite omap_app. simpl.
      by rewrite app_nil_r. }
    destruct (validate o st1); simpl.
    + rewrite Hu1, Hr. simpl. apply Hnext; try done.
      * unfold SettingsMore.hook_runs in *. simpl. rewrite omap_app. simpl.
        by rewrite app_nil_r.
      * unfold SettingsMore.prompts in *. simpl. rewrite omap_app. simpl.
        by rewrite app_nil_r.
    + by apply Hnext.
Qed.

Lemma required_boolean_rejects_false_answers_witness :
  exists st',
    set_value 3 bool_option (VStr "") "Include? " (VStr "") (console ["0"; "false"])
    = Some (Raised EOFError st')
    /\ value_explicitly_set st' = false
    /\ SettingsMore.hook_runs (events st') = []
    /\ SettingsMore.prompts (events st') = ["Include? "; "Include? "; "Include? "].
Proof.
  apply (required_boolean_rejects_false_answers
           bool_option "Include? " (console ["0"; "false"]) 3);
    [reflexivity | reflexivity | discriminate
     | | reflexivity | reflexivity | simpl; lia].
  apply Forall_cons. split; [by left|].
  apply Forall_cons. split; [by right|]. constructor.
Defined.

(** X5: at the prompt of an optional option without hook or validator
    (neither boolean nor integer), one line settles the value: an empty
    line stands for the default when there is one, any other line, and
    the empty line without a default, is taken as typed.  The call
    returns with that value in the cell, the error flag clear, and the
    rest of the console unread. *)
Theorem empty_line_takes_the_default (o : SettingOption) (prompt line : string)
    (rest : list string) (st : State) (fuel : nat) :
  method o ≠ DEFINE_boolean ->
  method o ≠ DEFINE_integer ->
  after o = None ->
  validation o = None ->
  required o = false ->
  prompt ≠ "" ->
  stdin st = line :: rest ->
  exists st',
    set_value (S fuel) o (VStr "") prompt (VStr "") st = Some (Returned tt st')
    /\ value st' = (if String.eqb line "" && negb (is_none (default o))
                    then default o else VStr line)
    /\ error st' = false
    /\ stdin st' = rest
    /\ SettingsMore.prompts (events st')
       = (SettingsMore.prompts (events st) ++ [prompt])%list.
Proof.
  intros Hb Hi Ha Hval Hr Hp%String.eqb_neq Hin.
  simpl. unfold set_value_body, num_opts. rewrite Hp. simpl.
  unfold bind at 1. unfold input. rewrite Hin.
  set (st1 := emit (EvInput prompt) (with_stdin rest st)).
  set (chosen := if (line =? "")%string && negb (is_none (default o))
                 then default o else VStr line).
  assert (Hc : (if (line =? "")%string && negb (is_none (default o))
                then value_setter o (default o) else value_setter o (VStr line))
               = value_setter o chosen)
    by (subst chosen; by destruct (_ && _)).
  rewrite Hc. unfold bind at 1. rewrite value_setter_plain by done.
  unfold bind at 1, gets at 1. simpl (error _).
  unfold validate_and_finish, bind, gets, validate. rewrite Hval, Hr.
  cbn [negb]. rewrite orb_true_r. unfold ret.
  eexists. split; [reflexivity|]. repeat split.
  unfold SettingsMore.prompts. simpl. by rewrite omap_app.
Qed.

Lemma empty_line_takes_the_default_witness :
  exists st',
    set_value 1 SettingsMore.text_option_with_default (VStr "") "Dataset: " (VStr "")
              (console [""; "next"])
    = Some (Returned tt st')
    /\ value st' = VStr "raw"
    /\ error st' = false
    /\ stdin st' = ["next"]
    /\ SettingsMore.prompts (events st') = ["Dataset: "].
Proof.
  apply (empty_line_takes_the_default
           SettingsMore.text_option_with_default "Dataset: " "" ["next"] (console [""; "next"]) 0);
    [discriminate | discriminate | reflexivity | reflexivity | reflexivity
     | discriminate | reflexivity].
Defined.

(** X6: an exception raised by the post-set hook is not caught by
    [set_value] (direct-value mode, option neither boolean nor
    integer): it leaves the call in the pass that ran the hook.  The
    value was stored before the hook ran, the error flag is the one from
    before the call, and neither the validator nor a retry follows. *)
Theorem hook_exception_leaves_set_value (o : SettingOption) (hook : Hook)
    (v : Val) (e : Exn) (w : HookView) (st : State) (fuel : nat) :
  method o ≠ DEFINE_boolean ->
  method o ≠ DEFINE_integer ->
  after o = Some hook ->
  ne_empty v = true ->
  hook (view (emit (EvAfter v) (store v st))) = HRaise e w ->
  exists st',
    set_value (S fuel) o v "" (VStr "") st = Some (Raised e st')
    /\ view st' = w
    /\ error st' = error st
    /\ SettingsMore.hook_runs (events st')
       = (SettingsMore.hook_runs (events st) ++ [v])%list
    /\ stdin st' = stdin st.
Proof.
  intros Hb Hi Ha Hne Hh. simpl. unfold set_value_body, num_opts.
  rewrite Hne. simpl. unfold bind at 1.
  assert (Hs : value_setter o v st
               = Raised e (with_view w (emit (EvAfter v) (store v st)))).
  { unfold value_setter, bind, modify, run_after.
    destruct (method o); try done; simpl; rewrite Ha;
      change (value (store v st)) with v; by rewrite Hh. }
  rewrite Hs. eexists. split; [reflexivity|]. split; [by destruct w|].
  repeat split. unfold SettingsMore.hook_runs. simpl. by rewrite omap_app.
Qed.

Lemma hook_exception_leaves_set_value_witness :
  exists st',
    set_value 1 SettingsMore.text_option_failing (VStr "proj") "" (VStr "") (console ["x"])
    = Some (Raised ValueError st')
    /\ view st' = mkView (set_val (VStr "proj") unset) ∅
    /\ error st' = false
    /\ SettingsMore.hook_runs (events st') = [VStr "proj"]
    /\ stdin st' = ["x"].
Proof.
  apply (hook_exception_leaves_set_value
           SettingsMore.text_option_failing SettingsMore.failing (VStr "proj")
           ValueError _ (console ["x"]) 0);
    [discriminate | discriminate | reflexivity | reflexivity | reflexivity].
Defined.

End SettingsExtra.

(** * More on the traversal of [Decoder] *)

Module DecoderExtra.
Import Decoder DecoderAux DecoderSamples DecoderMore DecoderProps.

(** *** Relations the whole traversal keeps *)

Section Kept.

Variable R : State -> State -> Prop.
Hypothesis R_refl : forall s, R s s.
Hypothesis R_trans : forall s1 s2 s3, R s1 s2 -> R s2 s3 -> R s1 s3.
Hypothesis R_emit : forall e s, header_flags [e] = [] -> R s (emit e s).
Hypothesis R_write : forall df s, R s (final_state (write df s)).
Hypothesis R_clock : forall n s, R s (set_clock n s).
Hypothesis R_tmp : forall l s, R s (set_tmp l s).

Local Abbreviation keeps := (kept_by R).

Lemma keeps_ret {A} (a : A) : keeps (ret a).
Proof. intros s. apply R_refl. Qed.

Lemma keeps_raise {A} (e : Exn) : keeps (raise (A := A) e).
Proof. intros s. apply R_refl. Qed.

Lemma keeps_bind {A B} (c : M State A) (k : A -> M State B) :
  keeps c -> (forall a, keeps (k a)) -> keeps (bind c k).
Proof.
  intros Hc Hk s. unfold bind. specialize (Hc s).
  destruct (c s) as [a s'|e s']; simpl in *; [|done].
  eapply R_trans; [exact Hc|apply Hk].
Qed.

Lemma keeps_emit (e : Event) : header_flags [e] = [] -> keeps (modify (emit e)).
Proof. intros He s. by apply R_emit. Qed.

Lemma keeps_decode_csv_loop encs r p : keeps (decode_csv_loop encs r p).
Proof.
  induction encs as [|encoding rest IH]; simpl; [apply keeps_ret|].
  apply keeps_bind; [by apply keeps_emit|]. intros _.
  destruct (csv r encoding) as [df|e].
  - apply keeps_bind; [intros s; apply R_write|]. intros _. by apply keeps_emit.
  - destruct (is_unicode_error e); [|apply keeps_raise].
    destruct (String.eqb encoding "latin-1"); [apply keeps_raise|].
    apply keeps_bind; [by apply keeps_emit|]. by intros _.
Qed.

Lemma keeps_FileDecoder_run r p : keeps (FileDecoder_run r p).
Proof.
  assert (Hx : keeps (decode_excel r p)).
  { unfold decode_excel. apply keeps_bind; [by apply keeps_emit|]. intros _.
    destruct (excel r) as [df|e]; [|apply keeps_raise].
    apply keeps_bind; [intros s; apply R_write|]. intros _. by apply keeps_emit. }
  intros s. unfold FileDecoder_run. specialize (Hx s).
  destruct (decode_excel r p s) as [[] s'|e s']; simpl in *; [done|].
  destruct e; simpl; try done.
  eapply R_trans; [exact Hx|]. apply keeps_decode_csv_loop.
Qed.

Lemma keeps_DirectoryDecoder_run (choose : Node -> string -> M State unit) p listing :
  Forall (fun e => forall q, keeps (choose e.2 q)) listing ->
  keeps (DirectoryDecoder_run choose p listing).
Proof.
  induction 1 as [|[name child] rest Hc _ IH]; simpl; [apply keeps_ret|].
  apply keeps_bind; [apply Hc|]. by intros _.
Qed.

Lemma keeps_archive_run (choose : Node -> string -> M State unit) prefix members :
  Forall (fun e => forall q, keeps (choose e.2 q)) members ->
  keeps (archive_run choose prefix members).
Proof.
  intros Hall. unfold archive_run.
  apply keeps_bind; [intros s; apply R_clock|]. intros stamp.
  apply keeps_bind.
  { intros s. unfold extractall, modify. simpl.
    eapply R_trans; [|by apply R_emit].
    case_bool_decide; [apply R_refl|apply R_tmp]. }
  intros _. apply keeps_bind; [by apply keeps_DirectoryDecoder_run|]. intros _.
  intros s. unfold rmtree. case_bool_decide; simpl; [|apply R_refl].
  eapply R_trans; [apply R_tmp|by apply R_emit].
Qed.

Lemma keeps_ChooseyDecoder_run (n : Node) : forall p, keeps (ChooseyDecoder_run n p).
Proof.
  induction n as [entries IH|r|r members IH|r members IH] using Node_ind;
    intros p; simpl.
  - by apply keeps_DirectoryDecoder_run.
  - destruct (_ || _); [apply keeps_FileDecoder_run|by apply keeps_emit].
  - destruct (_ || _); [apply keeps_FileDecoder_run|by apply keeps_archive_run].
  - destruct (_ || _); [apply keeps_FileDecoder_run|by apply keeps_archive_run].
Qed.

End Kept.

(** *** The counters *)

Lemma rows_written_app t u :
  rows_written (t ++ u) = (rows_written t + rows_written u)%nat.
Proof. unfold rows_written. by rewrite omap_app, sum_list_with_app. Qed.

Lemma targets_app t u : targets (t ++ u) = (targets t ++ targets u)%list.
Proof. apply omap_app. Qed.

Lemma modes_app t u : modes (t ++ u) = (modes t ++ modes u)%list.
Proof. apply omap_app. Qed.

Lemma write_counters (df : DataFrame) (s : State) :
  rows_opened (final_state (write df s)) = (rows_opened s + length (index df))%nat
  /\ _file_count (final_state (write df s))
     = (if out_type s =? SINGLE_FILE then _file_count s else S (_file_count s)).
Proof.
  unfold write, bind, gets, modify, filename, ret.
  destruct (out_type s =? SINGLE_FILE) eqn:E; [destruct (first s) eqn:F|];
    simpl; rewrite ?E; simpl; done.
Qed.

Lemma Counts_refl s : Counts s s.
Proof.
  split; try done. exists []. rewrite app_nil_r. split; [done|].
  split; [unfold rows_written; simpl; lia|]. split.
  - destruct (out_type s =? SINGLE_FILE); simpl; lia.
  - intros _. simpl. repeat split; constructor.
Qed.

Lemma Counts_trans s1 s2 s3 : Counts s1 s2 -> Counts s2 s3 -> Counts s1 s3.
Proof.
  intros [Ho Hd (new1 & Ht1 & Hr1 & Hc1 & Hs1)] [Ho' Hd' (new2 & Ht2 & Hr2 & Hc2 & Hs2)].
  split; try congruence.
  exists (new1 ++ new2)%list. split; [by rewrite Ht2, Ht1, app_assoc|].
  split; [rewrite rows_written_app; lia|].
  rewrite Ho in Hc2, Hs2. rewrite Hd in Hs2.
  rewrite targets_app, length_app. split.
  - destruct (out_type s1 =? SINGLE_FILE); lia.
  - intros Hsep. rewrite Hsep in *.
    destruct (Hs1 eq_refl) as (Hg1 & Hh1 & Hm1).
    destruct (Hs2 eq_refl) as (Hg2 & Hh2 & Hm2).
    rewrite header_flags_app, modes_app. split; [|split; by apply Forall_app].
    rewrite seq_app, fmap_app. f_equal; [done|].
    rewrite Hg2 at 1. f_equal. f_equal. lia.
Qed.

Lemma Counts_emit e s : header_flags [e] = [] -> Counts s (emit e s).
Proof.
  intros He. split; try done. exists [e]. split; [done|].
  assert (Hrows : rows_written [e] = 0%nat) by (by destruct e).
  assert (Htg : targets [e] = []) by (by destruct e).
  assert (Hmd : modes [e] = []) by (by destruct e).
  rewrite Hrows, Htg, Hmd, He. simpl. split; [lia|]. split.
  - destruct (out_type s =? SINGLE_FILE); lia.
  - intros _. repeat split; constructor.
Qed.

Lemma Counts_write df s : Counts s (final_state (write df s)).
Proof.
  destruct (write_counters df s) as [Hrows Hcount].
  destruct (write_spec df s) as (s' & Hw & _ & Ho & _ & Hdir & _ & _ & _ & Ht).
  rewrite Hw in *. simpl in *. split; try done.
  eexists. split; [exact Ht|]. unfold rows_written. simpl.
  split; [lia|]. split.
  - rewrite Hcount. destruct (out_type s =? SINGLE_FILE); lia.
  - intros Hsep. rewrite Hsep. repeat split; by repeat constructor.
Qed.

Lemma Counts_fields s s' :
  out_type s' = out_type s -> dir s' = dir s -> trace s' = trace s ->
  rows_opened s' = rows_opened s -> _file_count s' = _file_count s ->
  Counts s s'.
Proof.
  intros Ho Hd Ht Hr Hc. split; try done. exists []. rewrite app_nil_r.
  split; [done|]. split; [unfold rows_written; simpl; lia|]. split.
  - destruct (out_type s =? SINGLE_FILE); simpl; lia.
  - intros _. simpl. repeat split; constructor.
Qed.

Lemma Counts_ChooseyDecoder_run (n : Node) (p : string) (s : State) :
  Counts s (final_state (ChooseyDecoder_run n p s)).
Proof.
  apply (keeps_ChooseyDecoder_run Counts).
  - apply Counts_refl.
  - apply Counts_trans.
  - apply Counts_emit.
  - apply Counts_write.
  - intros k s0. by apply Counts_fields.
  - intros l s0. by apply Counts_fields.
Qed.

(** [run] when the output directory it is about to make exists: the
    call ends in [os.mkdir], before anything is read. *)
Lemma run_final_state_exists (root : Node) (s : State) :
  "/tmp/updir-" ++ pretty (clock s) ∈ tmp s ->
  final_state (run root s)
  = set_dir (Some ("/tmp/updir-" ++ pretty (clock s))) (set_clock (S (clock s)) s).
Proof.
  intros Hin. unfold run, bind, time, modify, mkdir. simpl.
  by rewrite bool_decide_eq_true_2.
Qed.

(** The two ways [run] ends, seen from the state it started in. *)
Lemma run_cases (root : Node) (s : State) :
  trace (final_state (run root s)) = trace s
  /\ rows_opened (final_state (run root s)) = rows_opened s
  /\ _file_count (final_state (run root s)) = _file_count s
  \/ final_state (run root s)
     = final_state (ChooseyDecoder_run root (path s) (started s)).
Proof.
  destruct (decide ("/tmp/updir-" ++ pretty (clock s) ∈ tmp s)) as [Hin|Hfresh].
  - left. by rewrite run_final_state_exists.
  - right. by apply run_final_state.
Qed.

(** X7: the row counter of a decoder counts what was written: after
    [run], however it ended and whatever the mode, [rows_opened] is the
    number of rows of all the frames handed to [to_csv]. *)
Theorem rows_opened_counts_rows_written (enc p : string) (dict_map : dict)
    (ot : Z) (dst : string) (now : nat) (existing : list string) (root : Node) :
  let s0 := init enc p dict_map ot dst now existing in
  rows_opened (final_state (run root s0))
  = rows_written (trace (final_state (run root s0))).
Proof.
  intros s0. destruct (run_cases root s0) as [(Ht & Hr & _)|Hf].
  - by rewrite Ht, Hr.
  - rewrite Hf.
    destruct (Counts_ChooseyDecoder_run root (path s0) (started s0))
      as [_ _ (new & Ht & Hr & _)].
    rewrite Ht, Hr, rows_written_app. reflexivity.
Qed.

Lemma numbered_inj (d : option string) : Inj (=) (=) (numbered d).
Proof.
  intros i j H. unfold numbered in H.
  apply (inj (String.append _)) in H. apply (inj (String.append _)) in H.
  by apply (inj pretty) in H.
Qed.

(** X8: a run of a new decoder that writes separate files numbers them
    from 1 in the order of writing, under the output directory it made:
    no two writes go to the same file, each file is opened afresh and
    gets its header, and [_file_count] ends as the number of files. *)
Theorem separate_files_are_numbered (enc p : string) (dict_map : dict)
    (ot : Z) (dst : string) (now : nat) (existing : list string) (root : Node) :
  ot ≠ SINGLE_FILE ->
  let s0 := init enc p dict_map ot dst now existing in
  let final := final_state (run root s0) in
  targets (trace final)
  = ((fun i => "/tmp/updir-" ++ pretty now ++ "/" ++ pretty i)
       <$> seq 1 (length (targets (trace final))))
  /\ NoDup (targets (trace final))
  /\ Forall (fun h => h = true) (header_flags (trace final))
  /\ Forall (fun m => m = "w") (modes (trace final))
  /\ _file_count final = length (targets (trace final)).
Proof.
  intros Hot s0 final.
  assert (Hsep : (out_type s0 =? SINGLE_FILE) = false) by (by apply Z.eqb_neq).
  subst final. destruct (run_cases root s0) as [(Ht & _ & Hc)|Hf].
  - rewrite Ht, Hc. simpl. repeat split; constructor.
  - rewrite Hf.
    destruct (Counts_ChooseyDecoder_run root (path s0) (started s0))
      as [_ _ (new & Ht & _ & Hc & Hs)].
    change (out_type (started s0)) with (out_type s0) in Hc, Hs.
    rewrite Hsep in Hc. destruct (Hs Hsep) as (Hg & Hh & Hm).
    rewrite Ht. change (trace (started s0)) with [MadeDir ("/tmp/updir-" ++ pretty now)].
    rewrite targets_app, header_flags_app, modes_app. simpl.
    change (targets [_]) with (@nil string).
    change (_file_count (started s0)) with 0%nat in Hg, Hc.
    assert (Hsame : targets new
                    = (fun i => "/tmp/updir-" ++ pretty now ++ "/" ++ pretty i)
                        <$> seq 1 (length (targets new))) by exact Hg.
    simpl. split; [exact Hsame|]. split; [|done].
    rewrite Hg. apply NoDup_fmap_2; [apply numbered_inj|apply NoDup_seq].
Qed.

Lemma separate_files_are_numbered_witness :
  targets (trace (final_state (run mixed_directory separate)))
  = ["/tmp/updir-7/1"; "/tmp/updir-7/2"]
  /\ NoDup (targets (trace (final_state (run mixed_directory separate)))).
Proof.
  pose proof (separate_files_are_numbered
                "utf-8" "/in" two_columns SEPARATE_FILES "out.csv" 7 [] mixed_directory)
    as H.
  destruct H as (Ht & Hn & _); [discriminate|].
  split; [|exact Hn]. vm_compute. reflexivity.
Defined.

(** X9: a decoder is good for one merged run.  When [run] is called on a
    decoder whose flag [first] is already down, as a finished merged run
    that wrote anything leaves it, no [to_csv] call of that run carries
    the header. *)
Theorem second_merged_run_writes_no_header (root : Node) (s : State) :
  out_type s = SINGLE_FILE ->
  first s = false ->
  exists k,
    header_flags (trace (final_state (run root s)))
    = (header_flags (trace s) ++ replicate k false)%list.
Proof.
  intros Hs Hf.
  destruct (decide ("/tmp/updir-" ++ pretty (clock s) ∈ tmp s)) as [Hin|Hfresh].
  - exists 0%nat. rewrite run_final_state_exists by done. simpl.
    by rewrite app_nil_r.
  - rewrite run_final_state by done.
    destruct (preserves_ChooseyDecoder_run root (path s) (started s))
      as [_ _ _ _ _ _ (new & Ht & Hh)].
    destruct Hh as (_ & Hflags & _); [done|].
    change (first (started s)) with (first s) in Hflags.
    rewrite Hf, expected_flags_false in Hflags.
    exists (length (header_flags new)).
    rewrite Ht, header_flags_app. simpl. rewrite header_flags_app. simpl.
    by rewrite app_nil_r, <- Hflags.
Qed.

Lemma second_merged_run_writes_no_header_witness :
  exists k,
    header_flags (trace (final_state
                           (run mixed_directory
                                (final_state (run mixed_directory merged)))))
    = ([true; false] ++ replicate k false)%list.
Proof.
  apply (second_merged_run_writes_no_header
           mixed_directory (final_state (run mixed_directory merged)));
    vm_compute; reflexivity.
Defined.

(** *** Spreadsheet first *)


(** *** The map *)






(** *** Which entries are tables *)











(** *** A tree in which every table decodes *)






End DecoderExtra.

(** * More on the attributes of [SettingOption] objects *)

Module ObjectsExtra.
Import Objects.

Lemma create_value_cell (a : CreateArgs) (h : Heap) :
  getattr (create a h).1 "_SettingOption__value" = Some (Ref (next h))
  /\ objects (create a h).2 !! next h = Some (OValue Settings.unset)
  /\ next (create a h).2 = S (next h).
Proof.
  unfold getattr, create, new, alloc. cbn [fst snd objects next].
  rewrite !lookup_insert_ne by done. by rewrite !lookup_insert_eq.
Qed.

(** X13: every option made by [create] gets a value cell of its own:
    two options hold different cell objects, each new and unset, and
    neither is the dictionary behind [custom_data], which they share. *)
Theorem value_cells_are_not_shared (a b : CreateArgs) :
  let '(first_option, h1) := create a class_heap in
  let '(second_option, h2) := create b h1 in
  exists l1 l2 : nat,
    getattr first_option "_SettingOption__value" = Some (Ref l1)
    /\ getattr second_option "_SettingOption__value" = Some (Ref l2)
    /\ l1 ≠ l2
    /\ l1 ≠ custom_data_object /\ l2 ≠ custom_data_object
    /\ objects h2 !! l1 = Some (OValue Settings.unset)
    /\ objects h2 !! l2 = Some (OValue Settings.unset)
    /\ getattr first_option "custom_data" = getattr second_option "custom_data".
Proof.
  pose proof (create_value_cell a class_heap) as (Ha & Hoa & Hna).
  pose proof (ObjectsProps.create_custom_data a class_heap) as Hca.
  destruct (create a class_heap) as [first_option h1] eqn:E1.
  cbn [fst snd] in Ha, Hoa, Hna, Hca.
  pose proof (create_value_cell b h1) as (Hb & Hob & Hnb).
  pose proof (ObjectsProps.create_custom_data b h1) as Hcb.
  pose proof (ObjectsProps.create_keeps b h1 (next class_heap)) as Hkeep.
  destruct (create b h1) as [second_option h2] eqn:E2.
  cbn [fst snd] in Hb, Hob, Hnb, Hcb, Hkeep.
  destruct Hkeep as [Hkeep _]; [lia|].
  exists (next class_heap), (next h1).
  split; [done|]. split; [done|]. split; [lia|].
  split; [by vm_compute|]. split; [rewrite Hna; by vm_compute|].
  split; [by rewrite Hkeep|]. split; [done|]. congruence.
Qed.

(** X14: what [create] is given is what the option reads back, in place
    of the defaults of the class; an option made by the bare constructor
    reads the defaults of the class, among them [required = False]; and
    the error flag of a new option is the class-level [False]. *)
Theorem create_attributes_read_back (a : CreateArgs) (h : Heap) :
  let made := (create a h).1 in
  let bare := (new h).1 in
  getattr made "default" = Some (arg_default a)
  /\ getattr made "help" = Some (arg_helptext a)
  /\ getattr made "method" = Some (arg_method a)
  /\ getattr made "required" = Some (arg_required a)
  /\ getattr made "validation" = Some (arg_validation a)
  /\ getattr made "show" = Some (arg_show a)
  /\ getattr made "after" = Some (arg_after a)
  /\ getattr made "prompt" = Some (arg_prompt a)
  /\ getattr made "_SettingOption__error" = Some (Plain (VBool false))
  /\ getattr bare "required" = Some (Plain (VBool false))
  /\ getattr bare "method" = Some (Plain VNone)
  /\ getattr bare "default" = Some (Plain VNone).
Proof.
  unfold getattr, create, new, alloc, class_namespace. cbn [fst snd].
  repeat split;
    repeat first [ rewrite lookup_insert_eq | rewrite lookup_insert_ne by done
                 | rewrite lookup_empty ];
    reflexivity.
Qed.

End ObjectsExtra.
